(** * Celebration House booking API: the query executor, the filter query
      builder and the request validation of [server.js]

    The development follows [src/server.js] (the latest variant of the
    server).  JavaScript values are embedded as a small sum type, the
    asynchronous handlers as state-passing computations over a [World]
    that holds the database behind the pool, a script of connection
    faults, and the trace of the pool calls and timers the code issues.
    Console logging is not part of the model. *)

From Stdlib Require Import String Ascii List ZArith Bool Lia Arith.
From Stdlib Require Import DecimalString DecimalPos Sorted Permutation.
Import ListNotations.

Local Open Scope string_scope.
Local Open Scope Z_scope.
Local Open Scope list_scope.

(** ** JavaScript values and the primitives the server uses *)

Module JS.

(** The scalar values that reach the handlers: the fields of a parsed JSON
    body, query-string values, and bound statement parameters.  Numbers are
    the integers, for which [String(n)] is the decimal numeral. *)
Inductive Val : Type :=
| VUndef
| VNull
| VBool (b : bool)
| VNum (n : Z)
| VStr (s : string).

(** [if (v)] / [!v]: undefined, null, false, 0 and the empty string are
    falsy. *)
Definition truthy (v : Val) : bool :=
  match v with
  | VUndef | VNull => false
  | VBool b => b
  | VNum n => negb (n =? 0)
  | VStr s => negb (s =? "")%string
  end.

(** Decimal numeral of an integer, [String(n)]. *)
Definition decimal (n : Z) : string := NilZero.string_of_int (Z.to_int n).

(** [String(v)], also the coercion [RegExp.prototype.test] applies. *)
Definition toString (v : Val) : string :=
  match v with
  | VUndef => "undefined"
  | VNull => "null"
  | VBool true => "true"
  | VBool false => "false"
  | VNum n => decimal n
  | VStr s => s
  end.

(** [s.includes(needle)] *)
Fixpoint includes (needle s : string) : bool :=
  String.prefix needle s ||
  match s with
  | EmptyString => false
  | String _ rest => includes needle rest
  end.

Definition lower (c : ascii) : ascii :=
  let n := nat_of_ascii c in
  if (65 <=? n)%nat && (n <=? 90)%nat then ascii_of_nat (n + 32) else c.

(** [s.toLowerCase()] on ASCII text. *)
Fixpoint toLowerCase (s : string) : string :=
  match s with
  | EmptyString => EmptyString
  | String c rest => String (lower c) (toLowerCase rest)
  end.

Fixpoint repeat_char (c : ascii) (n : nat) : string :=
  match n with
  | O => EmptyString
  | S k => String c (repeat_char c k)
  end.

(** [s.padStart(width, c)] with a one-character filler. *)
Definition padStart (width : nat) (c : ascii) (s : string) : string :=
  (repeat_char c (width - String.length s) ++ s)%string.

(** [s.slice(0, n)] *)
Definition slice0 (n : nat) (s : string) : string := String.substring 0 n s.

Definition is_digit (c : ascii) : bool :=
  let n := nat_of_ascii c in (48 <=? n)%nat && (n <=? 57)%nat.

(** The regular expressions of the server are anchored sequences of
    single-character classes: [\d] (or [[0-9]]) and literal characters. *)
Inductive CharClass : Type :=
| Digit
| Lit (c : ascii).

Definition class_match (k : CharClass) (c : ascii) : bool :=
  match k with
  | Digit => is_digit c
  | Lit l => Ascii.eqb l c
  end.

(** [/^...$/.test(s)]: the whole of [s] is matched, class by class. *)
Fixpoint matches (p : list CharClass) (s : string) : bool :=
  match p, s with
  | [], EmptyString => true
  | k :: p', String c s' => class_match k c && matches p' s'
  | _, _ => false
  end.

Definition test (p : list CharClass) (v : Val) : bool := matches p (toString v).

(** [/^[0-9]{10}$/] *)
Definition re_contact : list CharClass := repeat Digit 10.

(** [/^\d{4}-\d{2}-\d{2}$/] *)
Definition re_date : list CharClass :=
  [Digit; Digit; Digit; Digit; Lit "-"; Digit; Digit; Lit "-"; Digit; Digit].

(** [/^\d{2}:\d{2}:\d{2}$/] *)
Definition re_time_hms : list CharClass :=
  [Digit; Digit; Lit ":"; Digit; Digit; Lit ":"; Digit; Digit].

(** [/^\d{2}:\d{2}$/] *)
Definition re_time_hm : list CharClass :=
  [Digit; Digit; Lit ":"; Digit; Digit].

Definition is_space (c : ascii) : bool :=
  let n := nat_of_ascii c in
  (n =? 32)%nat || ((9 <=? n)%nat && (n <=? 13)%nat).

Fixpoint trimStart (s : string) : string :=
  match s with
  | String c rest => if is_space c then trimStart rest else s
  | EmptyString => EmptyString
  end.

(** Value of a character as a digit of the given radix. *)
Definition digit_value (radix : Z) (c : ascii) : option Z :=
  let n := Z.of_nat (nat_of_ascii c) in
  let v := if (48 <=? n) && (n <=? 57) then n - 48
           else if (97 <=? n) && (n <=? 122) then n - 87
           else if (65 <=? n) && (n <=? 90) then n - 55
           else 36 in
  if v <? radix then Some v else None.

(** The longest prefix of digits, most significant first. *)
Fixpoint leading_digits (radix : Z) (s : string) : list Z :=
  match s with
  | EmptyString => []
  | String c rest =>
      match digit_value radix c with
      | Some d => d :: leading_digits radix rest
      | None => []
      end
  end.

Definition digits_value (radix : Z) (ds : list Z) : Z :=
  fold_left (fun acc d => acc * radix + d) ds 0.

(** [parseInt(s)] without a radix argument: leading white space (the ASCII
    one), an optional sign, an optional [0x] prefix, then the longest run of
    digits.  [None] is NaN. *)
Definition parseInt (s : string) : option Z :=
  let s1 := trimStart s in
  let '(sign, s2) :=
    match s1 with
    | String c rest =>
        if Ascii.eqb c "-" then (-1, rest)
        else if Ascii.eqb c "+" then (1, rest)
        else (1, s1)
    | EmptyString => (1, s1)
    end in
  let '(radix, s3) :=
    if String.prefix "0x" s2 || String.prefix "0X" s2
    then (16, String.substring 2 (String.length s2 - 2) s2)
    else (10, s2) in
  match leading_digits radix s3 with
  | [] => None
  | ds => Some (sign * digits_value radix ds)
  end.

End JS.

Import JS.

(** ** Rows, statement results and the database behind the pool *)

(** Modelled from the spec: the schema of the [bookings] table, which the
    sources never declare.  The columns are those every SELECT of the server
    lists, with the types of section 3 of the specification: an integer
    [id], a textual [uniqueId] that is NULL until it is stamped, a date, a
    time, a numeric [amount], and text otherwise.  In a stored row
    [eventDate] is the ISO text [YYYY-MM-DD] and [eventTime] is [HH:MM:SS];
    in a row of a result set they are the texts [DATE_FORMAT] and
    [TIME_FORMAT] produce. *)
Record Booking : Type := mkBooking {
  id : Z;
  uniqueId : option string;
  customerName : string;
  contactNumber : string;
  eventDate : string;
  eventTime : string;
  branch : string;
  selectedPackage : string;
  amount : Z;
  celebrationType : string
}.

(** [result[0]] of [pool.query]: the array of rows of a SELECT, or the
    header of a mutating statement.  The object literal [{ affectedRows: 0 }]
    of [queryWithRetry] is a header without [insertId]. *)
Inductive QResult : Type :=
| Rows (rows : list Booking)
| Header (affectedRows : Z) (insertId : option Z).

(** [result.insertId] *)
Definition insertId_of (r : QResult) : Val :=
  match r with
  | Header _ (Some i) => VNum i
  | _ => VUndef
  end.

(** [result.affectedRows === 0] *)
Definition affectedRows_is_zero (r : QResult) : bool :=
  match r with
  | Header n _ => n =? 0
  | Rows _ => false
  end.

(** [results.length === 0] *)
Definition length_is_zero (r : QResult) : bool :=
  match r with
  | Rows [] => true
  | _ => false
  end.

(** How an awaited call completes: with a value, or by throwing an error
    whose [message] is kept. *)
Inductive Completion (A : Type) : Type :=
| Return (a : A)
| Throw (message : string).
Arguments Return {A} a.
Arguments Throw {A} message.

(** The database server reached through the pool: it runs one statement
    with its bound parameters against its state. *)
Class Database : Type := {
  db_state : Type;
  db_exec : db_state -> string -> list Val -> Completion QResult * db_state
}.

(** What the code does to the outside, in order: a statement handed to
    [pool.query], and a [setTimeout] wait in milliseconds. *)
Inductive Event : Type :=
| EQuery (sql : string) (params : list Val)
| ESleep (ms : Z).

(** ** Requests and responses *)

(** [req.query] of [GET /api/bookings/filter]: each parameter is absent or a
    string. *)
Record FilterQuery : Type := mkFilterQuery {
  date : option string;
  month : option string;
  year : option string;
  branch_param : option string
}.

(** A query-string parameter as a value: [undefined] when absent. *)
Definition qval (p : option string) : Val :=
  match p with
  | Some s => VStr s
  | None => VUndef
  end.

(** [req.body] of the create and update requests: the eight destructured
    fields, [VUndef] for a key the body does not have. *)
Module Req.
Record Body : Type := mkBody {
  customerName : Val;
  contactNumber : Val;
  eventDate : Val;
  eventTime : Val;
  branch : Val;
  selectedPackage : Val;
  amount : Val;
  celebrationType : Val
}.
End Req.

(** The JSON documents the handlers send. *)
Inductive Body : Type :=
| BError (error : string)
| BResult (results : QResult)
| BCreated (message bookingId : string)
| BMessage (message : string)
| BNotifications (message : string) (bookings : QResult).

Record Response : Type := mkResponse {
  status : Z;
  body : Body
}.

(** The [Date] object [tomorrow] of the notifications handler, through the
    four readings the handler takes of it; [isoDate] is
    [toISOString().split('T')[0]]. *)
Record JSDate : Type := mkJSDate {
  getDate : Z;
  getMonth : Z;
  getFullYear : Z;
  isoDate : string
}.

(** ** The statements of [server.js] *)

Definition filter_base : string := "
        SELECT id, uniqueId, customerName, contactNumber, 
               DATE_FORMAT(eventDate, '%d-%m-%Y') AS eventDate, 
               TIME_FORMAT(eventTime, '%H:%i') AS eventTime, 
               branch, selectedPackage, amount, celebrationType 
        FROM bookings 
        WHERE 1=1
    ".

Definition insert_sql : string := "
        INSERT INTO bookings (customerName, contactNumber, eventDate, eventTime, branch, selectedPackage, amount, celebrationType)
        VALUES (?, ?, ?, ?, ?, ?, ?, ?)
    ".

Definition stamp_sql : string := "UPDATE bookings SET uniqueId = ? WHERE id = ?".

Definition update_sql : string := "
        UPDATE bookings 
        SET customerName = ?, contactNumber = ?, eventDate = ?, eventTime = ?, 
            branch = ?, selectedPackage = ?, amount = ?, celebrationType = ?
        WHERE id = ?
    ".

Definition notifications_sql : string := "
        SELECT id, uniqueId, customerName, contactNumber, 
               DATE_FORMAT(eventDate, '%d-%m-%Y') AS eventDate, 
               TIME_FORMAT(eventTime, '%H:%i') AS eventTime, 
               branch, selectedPackage, amount, celebrationType 
        FROM bookings 
        WHERE eventDate = ?
        ORDER BY eventTime ASC
    ".

Section Server.

Context {DB : Database}.

(** [faults] scripts the connection layer for the coming [pool.query]
    calls, one entry per call: [Some m] makes the call reject with an error
    of message [m] before the statement reaches the database, [None] lets it
    through; past the end of the script every call goes through. *)
Record World : Type := mkWorld {
  db : db_state;
  faults : list (option string);
  trace : list Event
}.

Definition Async (A : Type) : Type := World -> Completion A * World.

Definition ret {A} (a : A) : Async A := fun w => (Return a, w).

Definition throw {A} (message : string) : Async A := fun w => (Throw message, w).

Definition bind {A B} (c : Async A) (k : A -> Async B) : Async B :=
  fun w =>
    match c w with
    | (Return a, w') => k a w'
    | (Throw m, w') => (Throw m, w')
    end.

(** [try { body } catch (err) { handler(err.message) }] *)
Definition try_catch {A} (body : Async A) (handler : string -> Async A) : Async A :=
  fun w =>
    match body w with
    | (Return a, w') => (Return a, w')
    | (Throw m, w') => handler m w'
    end.

Definition emit (e : Event) (w : World) : World :=
  mkWorld (db w) (faults w) (trace w ++ [e]).

(** [await new Promise(resolve => setTimeout(resolve, ms))] *)
Definition sleep (ms : Z) : Async unit := fun w => (Return tt, emit (ESleep ms) w).

(** [await pool.query(sql, params)], as [result[0]]. *)
Definition pool_query (sql : string) (params : list Val) : Async QResult :=
  fun w =>
    let tr := trace w ++ [EQuery sql params] in
    match faults w with
    | Some m :: rest => (Throw m, mkWorld (db w) rest tr)
    | script =>
        let '(c, d) := db_exec (db w) sql params in
        (c, mkWorld d (tl script) tr)
    end.

(** The value returned once the loop of [queryWithRetry] is left. *)
Definition fallback (sql : string) : QResult :=
  if includes "select" (toLowerCase sql) then Rows [] else Header 0 None.

(** [async function queryWithRetry(sql, params, retries = 3)]: the loop
    [while (retries > 0)] is the recursion on [retries], which an iteration
    either leaves or repeats with [retries] one less. *)
Fixpoint queryWithRetry (sql : string) (params : list Val) (retries : nat)
  : Async QResult :=
  match retries with
  | O => ret (fallback sql)
  | S remaining =>
      try_catch (pool_query sql params)
        (fun message =>
           if includes "closed state" message && (1 <? retries)%nat
           then bind (sleep 1000) (fun _ => queryWithRetry sql params remaining)
           else throw message)
  end.

(** The default of the [retries] parameter, which every caller relies on. *)
Definition default_retries : nat := 3.

(** [res.status(code).json(document)] *)
Definition json (code : Z) (document : Body) : Async Response :=
  ret (mkResponse code document).

(** *** Filter query builder: lines 71 to 101 of the filter handler *)

(** The statement and its parameters after the [if (date) ... else if
    (month && year) ...] block, or the 400 response that block returns. *)
Definition filter_dated (q : FilterQuery) : Response + (string * list Val) :=
  let query := filter_base in
  let params : list Val := [] in
  if truthy (qval (date q)) then
    if negb (test re_date (qval (date q)))
    then inl (mkResponse 400 (BError "Invalid date format: Use YYYY-MM-DD"))
    else inr ((query ++ " AND eventDate = ?")%string, params ++ [qval (date q)])
  else if truthy (qval (month q)) && truthy (qval (year q)) then
    match parseInt (toString (qval (month q))), parseInt (toString (qval (year q))) with
    | Some monthNum, Some yearNum =>
        if (monthNum <? 1) || (monthNum >? 12) || (yearNum <? 1000)
        then inl (mkResponse 400 (BError "Invalid month or year"))
        else inr ((query ++ " AND MONTH(eventDate) = ? AND YEAR(eventDate) = ?")%string,
                  params ++ [VNum monthNum; VNum yearNum])
    | _, _ => inl (mkResponse 400 (BError "Invalid month or year"))
    end
  else inr (query, params).

(** The whole builder: the [if (branch && branch !== 'All')] block follows. *)
Definition filter_build (q : FilterQuery) : Response + (string * list Val) :=
  match filter_dated q with
  | inl response => inl response
  | inr (query, params) =>
      if truthy (qval (branch_param q))
         && negb (toString (qval (branch_param q)) =? "All")%string
      then inr ((query ++ " AND branch = ?")%string, params ++ [qval (branch_param q)])
      else inr (query, params)
  end.

(** [app.get('/api/bookings/filter', ...)] *)
Definition get_bookings_filter (q : FilterQuery) : Async Response :=
  match filter_build q with
  | inl response => ret response
  | inr (query, params) =>
      try_catch
        (bind (queryWithRetry query params default_retries) (fun results =>
           if length_is_zero results
           then json 404 (BError "No bookings found for the selected filters")
           else json 200 (BResult results)))
        (fun message =>
           json 500 (BError ("Error fetching filtered bookings: " ++ message)%string))
  end.

(** *** Create and update *)

(** The required-field test shared by the create and update handlers:
    [!customerName || !contactNumber || ... || !celebrationType]. *)
Definition missing_fields (b : Req.Body) : bool :=
  negb (truthy (Req.customerName b)) || negb (truthy (Req.contactNumber b))
  || negb (truthy (Req.eventDate b)) || negb (truthy (Req.eventTime b))
  || negb (truthy (Req.branch b)) || negb (truthy (Req.selectedPackage b))
  || negb (truthy (Req.amount b)) || negb (truthy (Req.celebrationType b)).

(** [app.post('/api/bookings', ...)] *)
Definition post_bookings (b : Req.Body) : Async Response :=
  if missing_fields b then json 400 (BError "All fields required")
  else
    try_catch
      (bind (queryWithRetry insert_sql
               [Req.customerName b; Req.contactNumber b; Req.eventDate b;
                Req.eventTime b; Req.branch b; Req.selectedPackage b;
                Req.amount b; Req.celebrationType b] default_retries)
         (fun result =>
            let bookingId := padStart 5 "0" (toString (insertId_of result)) in
            bind (queryWithRetry stamp_sql [VStr bookingId; insertId_of result]
                    default_retries)
              (fun _ => json 201 (BCreated "Booking created" bookingId))))
      (fun message => json 500 (BError ("Error creating booking: " ++ message)%string)).

(** The [normalizedTime] block of the update handler.  [inl] is the 400
    response; [eventTime.slice] on a value that is not a string is a
    TypeError outside the handler's [try]. *)
Definition normalize_time (eventTime : Val) : Async (Response + Val) :=
  if test re_time_hms eventTime then
    match eventTime with
    | VStr s => ret (inr (VStr (slice0 5 s)))
    | _ => throw "eventTime.slice is not a function"
    end
  else if negb (test re_time_hm eventTime)
  then ret (inl (mkResponse 400 (BError "Invalid time format: Use HH:MM or HH:MM:SS")))
  else ret (inr eventTime).

(** [app.put('/api/bookings/:id', ...)] *)
Definition put_bookings_id (id : string) (b : Req.Body) : Async Response :=
  if missing_fields b then json 400 (BError "All fields required")
  else if negb (test re_contact (Req.contactNumber b))
  then json 400 (BError "Invalid contact number: Must be 10 digits")
  else if negb (test re_date (Req.eventDate b))
  then json 400 (BError "Invalid date format: Use YYYY-MM-DD")
  else
    bind (normalize_time (Req.eventTime b)) (fun normalized =>
      match normalized with
      | inl response => ret response
      | inr normalizedTime =>
          try_catch
            (bind (queryWithRetry update_sql
                     [Req.customerName b; Req.contactNumber b; Req.eventDate b;
                      normalizedTime; Req.branch b; Req.selectedPackage b;
                      Req.amount b; Req.celebrationType b; VStr id] default_retries)
               (fun result =>
                  if affectedRows_is_zero result
                  then json 404 (BError "Booking not found")
                  else json 200 (BMessage "Booking updated")))
            (fun message =>
               json 500 (BError ("Error updating booking: " ++ message)%string))
      end).

(** *** Notifications *)

Definition formatDateForResponse (date : JSDate) : string :=
  let day := padStart 2 "0" (decimal (getDate date)) in
  let month := padStart 2 "0" (decimal (getMonth date + 1)) in
  let year := getFullYear date in
  (day ++ "-" ++ month ++ "-" ++ decimal year)%string.

(** [app.get('/api/notifications', ...)]; [admin] is [req.query.admin] and
    [tomorrow] the date the handler derives from the clock once the admin
    test has passed. *)
Definition get_notifications (admin : option string) (tomorrow : JSDate)
  : Async Response :=
  let isAdmin :=
    match admin with
    | Some s => (s =? "true")%string
    | None => false
    end in
  if negb isAdmin then json 403 (BError "Access denied: Admin only")
  else
    let tomorrowDate := isoDate tomorrow in
    let tomorrowFormatted := formatDateForResponse tomorrow in
    try_catch
      (bind (queryWithRetry notifications_sql [VStr tomorrowDate] default_retries)
         (fun results =>
            json 200 (BNotifications
                        ("Bookings for tomorrow (" ++ tomorrowFormatted ++ ")")%string
                        results)))
      (fun message =>
         json 500 (BError ("Error fetching notifications: " ++ message)%string)).

End Server.

(** ** The other routes of [server.js] *)

Definition select_all_sql : string := "
        SELECT id, uniqueId, customerName, contactNumber, 
               DATE_FORMAT(eventDate, '%d-%m-%Y') AS eventDate, 
               TIME_FORMAT(eventTime, '%H:%i') AS eventTime, 
               branch, selectedPackage, amount, celebrationType 
        FROM bookings
    ".

Definition select_one_sql : string := "
        SELECT id, uniqueId, customerName, contactNumber, 
               DATE_FORMAT(eventDate, '%d-%m-%Y') AS eventDate, 
               TIME_FORMAT(eventTime, '%H:%i') AS eventTime, 
               branch, selectedPackage, amount, celebrationType 
        FROM bookings 
        WHERE id = ?
    ".

Definition delete_sql : string := "DELETE FROM bookings WHERE id = ?".

Definition ping_sql : string := "SELECT 1".

(** What [GET /api/bookings/:id] sends: one of the documents above, a single
    row object ([results[0]]), or nothing when [results[0]] is undefined. *)
Inductive Document : Type :=
| DBody (document : Body)
| DBooking (row : Booking)
| DUndefined.

Record Reply : Type := mkReply {
  reply_status : Z;
  reply_document : Document
}.

(** [results[0]] *)
Definition first_row (r : QResult) : Document :=
  match r with
  | Rows (row :: _) => DBooking row
  | _ => DUndefined
  end.

Section Routes.

Context {DB : Database}.

(** [app.get('/api/bookings', ...)]; [queryWithRetry(query)] passes no
    parameters. *)
Definition get_bookings : Async Response :=
  try_catch
    (bind (queryWithRetry select_all_sql [] default_retries) (fun bookings =>
       json 200 (BResult bookings)))
    (fun message => json 500 (BError ("Error fetching bookings: " ++ message)%string)).

(** [app.get('/api/bookings/:id', ...)] *)
Definition get_bookings_id (id : string) : Async Reply :=
  try_catch
    (bind (queryWithRetry select_one_sql [VStr id] default_retries) (fun results =>
       if length_is_zero results
       then ret (mkReply 404 (DBody (BError "Booking not found")))
       else ret (mkReply 200 (first_row results))))
    (fun message =>
       ret (mkReply 500 (DBody (BError ("Error fetching booking: " ++ message)%string)))).

(** [app.delete('/api/bookings/:id', ...)] *)
Definition delete_bookings_id (id : string) : Async Response :=
  try_catch
    (bind (queryWithRetry delete_sql [VStr id] default_retries) (fun result =>
       if affectedRows_is_zero result
       then json 404 (BError "Booking not found")
       else json 200 (BMessage "Booking deleted")))
    (fun message => json 500 (BError ("Error deleting booking: " ++ message)%string)).

(** The body of the [setInterval] callback: a liveness query sent straight
    to the pool, whose failure is logged and dropped. *)
Definition keep_alive : Async unit :=
  try_catch (bind (pool_query ping_sql []) (fun _ => ret tt)) (fun _ => ret tt).

End Routes.

(** ** A model of the MySQL server for the statements of [server.js]

    The server is outside the repository; this is the part of its behaviour
    the properties below rest on: statements are read up to white space,
    placeholders take the bound parameters from left to right, text is
    compared exactly, a value a column cannot hold makes the statement fail,
    and ORDER BY arranges the selected rows by insertion. *)

Module MySQL.

Record Table : Type := mkTable {
  rows : list Booking;
  auto_increment : Z
}.

(** Splitting a statement into its words. *)
Fixpoint words (s : string) (current : string) : list string :=
  match s with
  | EmptyString => if (current =? "")%string then [] else [current]
  | String c rest =>
      if is_space c
      then if (current =? "")%string then words rest "" else current :: words rest ""
      else words rest (current ++ String c "")%string
  end.

Definition tokens (sql : string) : list string := words sql "".

Fixpoint tokens_eqb (a b : list string) : bool :=
  match a, b with
  | [], [] => true
  | x :: a', y :: b' => (x =? y)%string && tokens_eqb a' b'
  | _, _ => false
  end.

Fixpoint strip_prefix (prefix ts : list string) : option (list string) :=
  match prefix, ts with
  | [], _ => Some ts
  | x :: prefix', y :: ts' => if (x =? y)%string then strip_prefix prefix' ts' else None
  | _ :: _, [] => None
  end.

Fixpoint split_on (sep : string) (ts : list string) : list (list string) :=
  match ts with
  | [] => [[]]
  | t :: rest =>
      if (t =? sep)%string then [] :: split_on sep rest
      else match split_on sep rest with
           | g :: gs => (t :: g) :: gs
           | [] => [[t]]
           end
  end.

(** The part of [ts] before the first [stop], and the part from it on. *)
Fixpoint break_at (stop : string) (ts : list string) : list string * list string :=
  match ts with
  | [] => ([], [])
  | t :: rest =>
      if (t =? stop)%string then ([], ts)
      else let '(before, from) := break_at stop rest in (t :: before, from)
  end.

(** The conditions of the WHERE clauses: [1=1], [id = ?], [eventDate = ?],
    [MONTH(eventDate) = ?], [YEAR(eventDate) = ?], [branch = ?]. *)
Inductive Cond : Type :=
| CTrue
| CId
| CEventDate
| CMonth
| CYear
| CBranch.

Inductive Statement : Type :=
| Select (conditions : list Cond) (order_by_eventTime : bool)
| Insert
| Stamp
| Update.

Definition parse_cond (group : list string) : option Cond :=
  if tokens_eqb group ["1=1"] then Some CTrue
  else if tokens_eqb group ["id"; "="; "?"] then Some CId
  else if tokens_eqb group ["eventDate"; "="; "?"] then Some CEventDate
  else if tokens_eqb group ["MONTH(eventDate)"; "="; "?"] then Some CMonth
  else if tokens_eqb group ["YEAR(eventDate)"; "="; "?"] then Some CYear
  else if tokens_eqb group ["branch"; "="; "?"] then Some CBranch
  else None.

Fixpoint all_some {A} (l : list (option A)) : option (list A) :=
  match l with
  | [] => Some []
  | Some a :: rest => option_map (cons a) (all_some rest)
  | None :: _ => None
  end.

Definition select_head : list string :=
  tokens "SELECT id, uniqueId, customerName, contactNumber,
          DATE_FORMAT(eventDate, '%d-%m-%Y') AS eventDate,
          TIME_FORMAT(eventTime, '%H:%i') AS eventTime,
          branch, selectedPackage, amount, celebrationType
          FROM bookings".

Definition parse_where (ts : list string) : option (list Cond) :=
  match ts with
  | [] => Some []
  | t :: conditions =>
      if (t =? "WHERE")%string
      then all_some (map parse_cond (split_on "AND" conditions))
      else None
  end.

Definition parse_order (ts : list string) : option bool :=
  if tokens_eqb ts [] then Some false
  else if tokens_eqb ts ["ORDER"; "BY"; "eventTime"; "ASC"] then Some true
  else None.

Definition parse (sql : string) : option Statement :=
  let ts := tokens sql in
  if tokens_eqb ts (tokens insert_sql) then Some Insert
  else if tokens_eqb ts (tokens stamp_sql) then Some Stamp
  else if tokens_eqb ts (tokens update_sql) then Some Update
  else
    match strip_prefix select_head ts with
    | Some rest =>
        let '(where_part, order_part) := break_at "ORDER" rest in
        match parse_where where_part, parse_order order_part with
        | Some conditions, Some ordered => Some (Select conditions ordered)
        | _, _ => None
        end
    | None => None
    end.

(** A bound parameter as SQL text; [None] is NULL. *)
Definition sql_text (v : Val) : option string :=
  match v with
  | VStr s => Some s
  | VNum n => Some (decimal n)
  | VBool true => Some "1"
  | VBool false => Some "0"
  | VUndef | VNull => None
  end.

Definition all_digits (s : string) : bool :=
  negb (s =? "")%string && (Nat.eqb (List.length (leading_digits 10 s)) (String.length s)).

(** A bound parameter as an integer. *)
Definition sql_int (v : Val) : option Z :=
  match v with
  | VNum n => Some n
  | VStr s => if all_digits s then Some (digits_value 10 (leading_digits 10 s)) else None
  | VBool true => Some 1
  | VBool false => Some 0
  | VUndef | VNull => None
  end.

(** A value for a DATE column. *)
Definition sql_date (v : Val) : option string :=
  match v with
  | VStr s => if matches re_date s then Some s else None
  | _ => None
  end.

(** A value for a TIME column, stored as [HH:MM:SS]. *)
Definition sql_time (v : Val) : option string :=
  match v with
  | VStr s =>
      if matches re_time_hms s then Some s
      else if matches re_time_hm s then Some (s ++ ":00")%string
      else None
  | _ => None
  end.

Definition month_of (iso : string) : option Z := sql_int (VStr (String.substring 5 2 iso)).

Definition year_of (iso : string) : option Z := sql_int (VStr (String.substring 0 4 iso)).

Definition opt_Z_eqb (a b : option Z) : bool :=
  match a, b with
  | Some x, Some y => x =? y
  | _, _ => false
  end.

Definition opt_text_eqb (a : option string) (b : string) : bool :=
  match a with
  | Some x => (x =? b)%string
  | None => false
  end.

(** Whether a row satisfies a condition whose placeholder is bound to [p]. *)
Definition holds (c : Cond) (p : Val) (r : Booking) : bool :=
  match c with
  | CTrue => true
  | CId => opt_Z_eqb (sql_int p) (Some (id r))
  | CEventDate => opt_text_eqb (sql_text p) (eventDate r)
  | CMonth => opt_Z_eqb (sql_int p) (month_of (eventDate r))
  | CYear => opt_Z_eqb (sql_int p) (year_of (eventDate r))
  | CBranch => opt_text_eqb (sql_text p) (branch r)
  end.

(** The conditions with their placeholders bound: each condition with a
    placeholder takes the next parameter, left to right; [None] when the
    parameters run out.  [1=1] has no placeholder. *)
Fixpoint bind_conds (cs : list Cond) (ps : list Val) : option (list (Cond * Val)) :=
  match cs with
  | [] => Some []
  | CTrue :: cs' => option_map (cons (CTrue, VUndef)) (bind_conds cs' ps)
  | c :: cs' =>
      match ps with
      | p :: ps' => option_map (cons (c, p)) (bind_conds cs' ps')
      | [] => None
      end
  end.

Definition satisfies (bound : list (Cond * Val)) (r : Booking) : bool :=
  forallb (fun '(c, p) => holds c p r) bound.

(** [DATE_FORMAT(eventDate, '%d-%m-%Y')] *)
Definition date_format (iso : string) : string :=
  (String.substring 8 2 iso ++ "-" ++ String.substring 5 2 iso ++ "-"
   ++ String.substring 0 4 iso)%string.

(** [TIME_FORMAT(eventTime, '%H:%i')] *)
Definition time_format (hms : string) : string := String.substring 0 5 hms.

(** A stored row as the SELECT list presents it. *)
Definition present (r : Booking) : Booking :=
  mkBooking (id r) (uniqueId r) (customerName r) (contactNumber r)
    (date_format (eventDate r)) (time_format (eventTime r))
    (branch r) (selectedPackage r) (amount r) (celebrationType r).

Fixpoint insert_by_eventTime (r : Booking) (sorted : list Booking) : list Booking :=
  match sorted with
  | [] => [r]
  | x :: rest =>
      if String.leb (eventTime r) (eventTime x) then r :: sorted
      else x :: insert_by_eventTime r rest
  end.

(** [ORDER BY eventTime ASC] *)
Definition order_by_eventTime (l : list Booking) : list Booking :=
  fold_right insert_by_eventTime [] l.

Definition syntax_error : string := "You have an error in your SQL syntax".

Definition value_error : string := "Incorrect value for column".

Definition run_select (cs : list Cond) (ordered : bool) (ps : list Val) (t : Table)
  : Completion QResult * Table :=
  match bind_conds cs ps with
  | Some bound =>
      let selected := filter (satisfies bound) (rows t) in
      let arranged := if ordered then order_by_eventTime selected else selected in
      (Return (Rows (map present arranged)), t)
  | None => (Throw syntax_error, t)
  end.

Definition run_insert (ps : list Val) (t : Table) : Completion QResult * Table :=
  match ps with
  | name :: contact :: day :: time :: place :: package :: price :: kind :: _ =>
      match sql_text name, sql_text contact, sql_date day, sql_time time,
            sql_text place, sql_text package, sql_int price, sql_text kind with
      | Some n, Some c, Some d, Some h, Some b, Some p, Some a, Some k =>
          let row := mkBooking (auto_increment t) None n c d h b p a k in
          (Return (Header 1 (Some (auto_increment t))),
           mkTable (rows t ++ [row]) (auto_increment t + 1))
      | _, _, _, _, _, _, _, _ => (Throw value_error, t)
      end
  | _ => (Throw syntax_error, t)
  end.

Definition is_row (key : Val) (r : Booking) : bool := holds CId key r.

Definition stamp_row (key : Val) (unique : option string) (r : Booking) : Booking :=
  if is_row key r
  then mkBooking (id r) unique (customerName r) (contactNumber r) (eventDate r)
         (eventTime r) (branch r) (selectedPackage r) (amount r) (celebrationType r)
  else r.

Definition affected (key : Val) (t : Table) : Z :=
  Z.of_nat (List.length (filter (is_row key) (rows t))).

Definition run_stamp (ps : list Val) (t : Table) : Completion QResult * Table :=
  match ps with
  | unique :: key :: _ =>
      (Return (Header (affected key t) (Some 0)),
       mkTable (map (stamp_row key (sql_text unique)) (rows t)) (auto_increment t))
  | _ => (Throw syntax_error, t)
  end.

Definition run_update (ps : list Val) (t : Table) : Completion QResult * Table :=
  match ps with
  | name :: contact :: day :: time :: place :: package :: price :: kind :: key :: _ =>
      match sql_text name, sql_text contact, sql_date day, sql_time time,
            sql_text place, sql_text package, sql_int price, sql_text kind with
      | Some n, Some c, Some d, Some h, Some b, Some p, Some a, Some k =>
          let change r :=
            if is_row key r then mkBooking (id r) (uniqueId r) n c d h b p a k else r in
          (Return (Header (affected key t) (Some 0)),
           mkTable (map change (rows t)) (auto_increment t))
      | _, _, _, _, _, _, _, _ => (Throw value_error, t)
      end
  | _ => (Throw syntax_error, t)
  end.

Definition exec (t : Table) (sql : string) (ps : list Val) : Completion QResult * Table :=
  match parse sql with
  | Some (Select cs ordered) => run_select cs ordered ps t
  | Some Insert => run_insert ps t
  | Some Stamp => run_stamp ps t
  | Some Update => run_update ps t
  | None => (Throw syntax_error, t)
  end.

#[export] Instance server : Database := {| db_state := Table; db_exec := exec |}.

End MySQL.

(** *** DELETE in the MySQL model

    The model above, with the one more statement the delete route sends; on
    every other statement the two agree. *)

Module MySQLFull.

Definition run_delete (ps : list Val) (t : MySQL.Table)
  : Completion QResult * MySQL.Table :=
  match ps with
  | key :: _ =>
      (Return (Header (MySQL.affected key t) (Some 0)),
       MySQL.mkTable (filter (fun r => negb (MySQL.is_row key r)) (MySQL.rows t))
         (MySQL.auto_increment t))
  | [] => (Throw MySQL.syntax_error, t)
  end.

Definition exec (t : MySQL.Table) (sql : string) (ps : list Val)
  : Completion QResult * MySQL.Table :=
  if MySQL.tokens_eqb (MySQL.tokens sql) (MySQL.tokens delete_sql)
  then run_delete ps t
  else MySQL.exec t sql ps.

Definition server : Database := {| db_state := MySQL.Table; db_exec := exec |}.

End MySQLFull.

(** ** Notions the properties are stated with *)

(** Number of occurrences of a character, used to count the [?]
    placeholders of a statement. *)
Fixpoint count_char (c : ascii) (s : string) : nat :=
  match s with
  | EmptyString => O
  | String x rest => ((if Ascii.eqb x c then 1 else 0) + count_char c rest)%nat
  end.

(** The value a condition of the filter is meant to be compared with, in
    terms of the request. *)
Definition intended (q : FilterQuery) (c : MySQL.Cond) (v : Val) : Prop :=
  match c with
  | MySQL.CTrue => True
  | MySQL.CEventDate => v = qval (date q)
  | MySQL.CMonth => option_map VNum (parseInt (toString (qval (month q)))) = Some v
  | MySQL.CYear => option_map VNum (parseInt (toString (qval (year q)))) = Some v
  | MySQL.CBranch => v = qval (branch_param q)
  | MySQL.CId => False
  end.

Definition has_placeholder (c : MySQL.Cond) : bool :=
  match c with
  | MySQL.CTrue => false
  | _ => true
  end.

(** The outcomes of the date and month/year block, by the test that
    produced them. *)
Inductive Dated (q : FilterQuery) : string -> list Val -> Prop :=
| dated_by_date (d : string) :
    date q = Some d -> matches re_date d = true ->
    Dated q (filter_base ++ " AND eventDate = ?")%string [VStr d]
| dated_by_month (m y : string) (monthNum yearNum : Z) :
    truthy (qval (date q)) = false ->
    month q = Some m -> year q = Some y ->
    parseInt m = Some monthNum -> parseInt y = Some yearNum ->
    1 <= monthNum <= 12 -> 1000 <= yearNum ->
    Dated q (filter_base ++ " AND MONTH(eventDate) = ? AND YEAR(eventDate) = ?")%string
      [VNum monthNum; VNum yearNum]
| dated_not :
    truthy (qval (date q)) = false ->
    truthy (qval (month q)) && truthy (qval (year q)) = false ->
    Dated q filter_base [].

(** The outcomes of the builder: with or without the branch condition. *)
Inductive Built (q : FilterQuery) : string -> list Val -> Prop :=
| built_with_branch (head : string) (hps : list Val) (b : string) :
    Dated q head hps ->
    branch_param q = Some b -> b <> "" -> b <> "All" ->
    Built q (head ++ " AND branch = ?")%string (hps ++ [VStr b])
| built_without_branch (head : string) (hps : list Val) :
    Dated q head hps ->
    branch_param q = None \/ branch_param q = Some "" \/ branch_param q = Some "All" ->
    Built q head hps.

(** The digits of a decimal numeral, most significant first. *)
Fixpoint uint_digits (d : Decimal.uint) : list Z :=
  match d with
  | Decimal.Nil => []
  | Decimal.D0 l => 0 :: uint_digits l
  | Decimal.D1 l => 1 :: uint_digits l
  | Decimal.D2 l => 2 :: uint_digits l
  | Decimal.D3 l => 3 :: uint_digits l
  | Decimal.D4 l => 4 :: uint_digits l
  | Decimal.D5 l => 5 :: uint_digits l
  | Decimal.D6 l => 6 :: uint_digits l
  | Decimal.D7 l => 7 :: uint_digits l
  | Decimal.D8 l => 8 :: uint_digits l
  | Decimal.D9 l => 9 :: uint_digits l
  end.

(** Every character is a decimal digit. *)
Fixpoint only_digits (s : string) : bool :=
  match s with
  | EmptyString => true
  | String c rest => is_digit c && only_digits rest
  end.

(** [p] holds of [from], [from + 1], ..., [from + count - 1]. *)
Fixpoint holds_from (p : Z -> bool) (from : Z) (count : nat) : bool :=
  match count with
  | O => true
  | S k => p from && holds_from p (from + 1) k
  end.

(** The rows a filter request with an exact date asks for: those of that
    date, and of the branch when one is named that is neither empty nor
    the word All. *)
Definition wanted_on (d : string) (br : option string) (r : Booking) : bool :=
  (eventDate r =? d)%string
  && match br with
     | Some b => (b =? "")%string || (b =? "All")%string || (branch r =? b)%string
     | None => true
     end.

(** Ascending order of two rows by [eventTime]. *)
Definition time_le (a b : Booking) : Prop :=
  String.leb (eventTime a) (eventTime b) = true.

(** What a run of [queryWithRetry] with [retries] retries adds to the
    trace: the first attempt, then a wait of 1000 ms and a further attempt
    per retry. *)
Fixpoint retry_trace (sql : string) (ps : list Val) (retries : nat) : list Event :=
  match retries with
  | O => [EQuery sql ps]
  | S k => EQuery sql ps :: ESleep 1000 :: retry_trace sql ps k
  end.


(** The rows a filter request by month and year asks for: those whose date
    has that month and year, and of the branch when one is named that is
    neither empty nor the word All. *)
Definition wanted_in (monthNum yearNum : Z) (br : option string) (r : Booking) : bool :=
  MySQL.opt_Z_eqb (Some monthNum) (MySQL.month_of (eventDate r))
  && MySQL.opt_Z_eqb (Some yearNum) (MySQL.year_of (eventDate r))
  && match br with
     | Some b => (b =? "")%string || (b =? "All")%string || (branch r =? b)%string
     | None => true
     end.

(** The form [DD-MM-YYYY] of a date in a message or a row. *)
Definition re_dmy : list CharClass :=
  [Digit; Digit; Lit "-"; Digit; Digit; Lit "-"; Digit; Digit; Digit; Digit].

(** The row an update leaves under an id: the submitted fields, the id and
    the [uniqueId] kept. *)
Definition updated (r : Booking) (name contact day hhmm place package kind : string)
           (price : Z) : Booking :=
  mkBooking (id r) (uniqueId r) name contact day (hhmm ++ ":00")%string place package
    price kind.

(** ** Sample data *)

Definition closed_state_message : string :=
  "Can't add new command when connection is in closed state".

Definition ann : Booking :=
  mkBooking 1 (Some "00001") "Ann" "9876543210" "2025-03-10" "18:30:00"
    "Main" "Gold" 500 "Birthday".

Definition bob : Booking :=
  mkBooking 2 (Some "00002") "Bob" "9876543211" "2025-03-10" "09:15:00"
    "East" "Silver" 300 "Wedding".

Definition sample_table : MySQL.Table := MySQL.mkTable [ann; bob] 3.

(** A world over the MySQL model with no pending fault and an empty trace. *)
Definition quiet (t : MySQL.Table) : @World MySQL.server :=
  @mkWorld MySQL.server t [] [].

(** A world whose next [n] pool calls fail with the closed-state error. *)
Definition outage (n : nat) (t : MySQL.Table) : @World MySQL.server :=
  @mkWorld MySQL.server t (repeat (Some closed_state_message) n) [].

(** The eight required fields of a body, in the order the handlers
    destructure them. *)
Definition fields (b : Req.Body) : list Val :=
  [Req.customerName b; Req.contactNumber b; Req.eventDate b; Req.eventTime b;
   Req.branch b; Req.selectedPackage b; Req.amount b; Req.celebrationType b].

(** A create request that is complete but carries a 3-digit contact
    number. *)
Definition short_contact_body : Req.Body :=
  Req.mkBody (VStr "Cy") (VStr "123") (VStr "2025-04-01") (VStr "10:00")
    (VStr "Main") (VStr "Gold") (VNum 500) (VStr "Party").

(** A complete body whose [amount] is the number 0. *)
Definition zero_amount_body : Req.Body :=
  Req.mkBody (VStr "Cy") (VStr "9876543212") (VStr "2025-04-01") (VStr "10:00")
    (VStr "Main") (VStr "Gold") (VNum 0) (VStr "Party").

(** A filter request for March 2025 at the East branch. *)
Definition march_east : FilterQuery :=
  mkFilterQuery None (Some "3") (Some "2025") (Some "East").

(** The answer of the filter handler to a result set. *)
Definition filter_answer (results : list Booking) : Response :=
  match results with
  | [] => mkResponse 404 (BError "No bookings found for the selected filters")
  | _ => mkResponse 200 (BResult (Rows results))
  end.

(** The answer of the notifications handler to a result set. *)
Definition notifications_answer (tomorrow : JSDate) (results : list Booking) : Response :=
  mkResponse 200
    (BNotifications ("Bookings for tomorrow (" ++ formatDateForResponse tomorrow ++ ")")%string
       (Rows results)).

(** The rows of a table whose date is the given one, in the order and form
    the notifications statement returns them. *)
Definition bookings_on (d : string) (t : MySQL.Table) : list Booking :=
  map MySQL.present
    (MySQL.order_by_eventTime
       (filter (fun r => (eventDate r =? d)%string) (MySQL.rows t))).

(** The tenth of March 2025, as [tomorrow]. *)
Definition march_10 : JSDate := mkJSDate 10 2 2025 "2025-03-10".

(** A complete and well-formed create request. *)
Definition cy_body : Req.Body :=
  Req.mkBody (VStr "Cy") (VStr "9876543212") (VStr "2025-04-01") (VStr "10:00")
    (VStr "Main") (VStr "Gold") (VNum 500) (VStr "Party").

(** A complete update body whose time carries seconds. *)
Definition evening_body : Req.Body :=
  Req.mkBody (VStr "Ann B") (VStr "9876500000") (VStr "2025-05-02") (VStr "19:45:30")
    (VStr "East") (VStr "Platinum") (VNum 750) (VStr "Anniversary").

(** ** The primitives on examples *)

Example truthy_zero : truthy (VNum 0) = false.
Proof. reflexivity. Qed.

Example padStart_42 : padStart 5 "0" (toString (VNum 42)) = "00042".
Proof. reflexivity. Qed.

Example parseInt_examples :
  parseInt "  12abc" = Some 12 /\ parseInt "0x1f" = Some 31 /\
  parseInt "-7" = Some (-7) /\ parseInt "abc" = None /\ parseInt "" = None.
Proof. repeat split; reflexivity. Qed.

Example re_date_examples :
  test re_date (VStr "2025-03-10") = true /\
  test re_date (VStr "2025-3-10") = false /\
  test re_contact (VNum 9876543210) = true /\
  test re_contact (VStr "98765") = false.
Proof. repeat split; reflexivity. Qed.

(** ** The resilient query executor *)

Section Executor.

Context {DB : Database}.

Lemma pool_query_trace (sql : string) (params : list Val) (w : World) :
  trace (snd (pool_query sql params w)) = trace w ++ [EQuery sql params].
Proof.
  unfold pool_query.
  destruct (faults w) as [|[m|] rest]; simpl; try reflexivity;
    destruct (db_exec (db w) sql params); reflexivity.
Qed.

Lemma pool_query_trace_eq (sql : string) (params : list Val) (w w' : World)
      (c : Completion QResult) :
  pool_query sql params w = (c, w') -> trace w' = trace w ++ [EQuery sql params].
Proof.
  intros H. rewrite <- pool_query_trace. rewrite H. reflexivity.
Qed.

(** One turn of the loop, by the way the attempt completes. *)
Lemma queryWithRetry_success sql params n w r w' :
  pool_query sql params w = (Return r, w') ->
  queryWithRetry sql params (S n) w = (Return r, w').
Proof.
  intros H. simpl. unfold try_catch. rewrite H. reflexivity.
Qed.

Lemma queryWithRetry_retry sql params n w m w' :
  pool_query sql params w = (Throw m, w') ->
  includes "closed state" m = true ->
  queryWithRetry sql params (S (S n)) w
  = queryWithRetry sql params (S n) (emit (ESleep 1000) w').
Proof.
  intros H Hm.
  change (queryWithRetry sql params (S (S n)) w)
    with (try_catch (pool_query sql params)
            (fun message =>
               if includes "closed state" message && (1 <? S (S n))%nat
               then bind (sleep 1000) (fun _ => queryWithRetry sql params (S n))
               else throw message) w).
  unfold try_catch. rewrite H, Hm. reflexivity.
Qed.

Lemma queryWithRetry_last sql params w m w' :
  pool_query sql params w = (Throw m, w') ->
  queryWithRetry sql params 1 w = (Throw m, w').
Proof.
  intros H. simpl. unfold try_catch. rewrite H.
  rewrite andb_false_r. reflexivity.
Qed.

Lemma queryWithRetry_other sql params n w m w' :
  pool_query sql params w = (Throw m, w') ->
  includes "closed state" m = false ->
  queryWithRetry sql params (S n) w = (Throw m, w').
Proof.
  intros H Hm. simpl. unfold try_catch. rewrite H, Hm. reflexivity.
Qed.

(** A result the executor returns from inside the loop is the result of
    running the statement on the database. *)
Lemma queryWithRetry_returns sql params n :
  forall w r w',
    queryWithRetry sql params (S n) w = (Return r, w') ->
    exists d d', db_exec d sql params = (Return r, d').
Proof.
  induction n as [|n IH]; intros w r w' H.
  - simpl in H. unfold try_catch, pool_query in H.
    destruct (faults w) as [|[m|] rest].
    + destruct (db_exec (db w) sql params) as [[a|m] d] eqn:E.
      * inversion H; subst. eauto.
      * rewrite andb_false_r in H. discriminate.
    + rewrite andb_false_r in H. discriminate.
    + destruct (db_exec (db w) sql params) as [[a|m] d] eqn:E.
      * inversion H; subst. eauto.
      * rewrite andb_false_r in H. discriminate.
  - destruct (pool_query sql params w) as [[a|m] w1] eqn:E.
    + rewrite (queryWithRetry_success _ _ _ _ _ _ E) in H.
      inversion H; subst.
      unfold pool_query in E.
      destruct (faults w) as [|[m|] rest]; try discriminate;
        destruct (db_exec (db w) sql params) as [c d] eqn:E';
        inversion E; subst; eauto.
    + destruct (includes "closed state" m) eqn:Hm.
      * rewrite (queryWithRetry_retry _ _ _ _ _ _ E Hm) in H. eauto.
      * rewrite (queryWithRetry_other _ _ _ _ _ _ E Hm) in H. discriminate.
Qed.

(** C4.  When the first two attempts fail with a closed-state error and the
    third succeeds, the call with the default budget of 3 returns the third
    attempt's result after exactly two retries, each preceded by a wait of
    1000 ms; and a failure whose message does not mention the closed state
    is thrown at once, with no wait and no further attempt. *)
Theorem queryWithRetry_retries_twice_then_succeeds :
  (forall sql params w m1 w1 m2 w2 r w3,
      pool_query sql params w = (Throw m1, w1) ->
      includes "closed state" m1 = true ->
      pool_query sql params (emit (ESleep 1000) w1) = (Throw m2, w2) ->
      includes "closed state" m2 = true ->
      pool_query sql params (emit (ESleep 1000) w2) = (Return r, w3) ->
      default_retries = 3%nat
      /\ queryWithRetry sql params default_retries w = (Return r, w3)
      /\ trace w3 = trace w ++ [EQuery sql params; ESleep 1000;
                                EQuery sql params; ESleep 1000;
                                EQuery sql params])
  /\ (forall sql params retries w m w1,
         pool_query sql params w = (Throw m, w1) ->
         includes "closed state" m = false ->
         queryWithRetry sql params (S retries) w = (Throw m, w1)
         /\ trace w1 = trace w ++ [EQuery sql params]).
Proof.
  split.
  - intros sql params w m1 w1 m2 w2 r w3 H1 C1 H2 C2 H3.
    split; [reflexivity|]. split.
    + unfold default_retries.
      rewrite (queryWithRetry_retry _ _ _ _ _ _ H1 C1).
      rewrite (queryWithRetry_retry _ _ _ _ _ _ H2 C2).
      apply queryWithRetry_success. exact H3.
    + rewrite (pool_query_trace_eq _ _ _ _ _ H3). simpl.
      rewrite (pool_query_trace_eq _ _ _ _ _ H2). simpl.
      rewrite (pool_query_trace_eq _ _ _ _ _ H1).
      repeat rewrite <- app_assoc. reflexivity.
  - intros sql params retries w m w1 H C. split.
    + apply queryWithRetry_other; assumption.
    + apply (pool_query_trace_eq _ _ _ _ _ H).
Qed.

(** C1, as the code has it.  When all three attempts of a call with the
    default budget fail with a closed-state error, the call makes exactly
    three attempts and two waits of 1000 ms and then throws the third
    attempt's error.  The empty row list (for a text containing "select") or
    the zero-affected-rows header is what a call entered with a budget of 0
    returns, without any attempt. *)
Theorem queryWithRetry_exhausted_throws :
  forall sql params w m1 w1 m2 w2 m3 w3,
    pool_query sql params w = (Throw m1, w1) ->
    includes "closed state" m1 = true ->
    pool_query sql params (emit (ESleep 1000) w1) = (Throw m2, w2) ->
    includes "closed state" m2 = true ->
    pool_query sql params (emit (ESleep 1000) w2) = (Throw m3, w3) ->
    includes "closed state" m3 = true ->
    queryWithRetry sql params default_retries w = (Throw m3, w3)
    /\ trace w3 = trace w ++ [EQuery sql params; ESleep 1000;
                              EQuery sql params; ESleep 1000;
                              EQuery sql params]
    /\ queryWithRetry sql params 0 w
       = (Return (if includes "select" (toLowerCase sql)
                  then Rows [] else Header 0 None), w).
Proof.
  intros sql params w m1 w1 m2 w2 m3 w3 H1 C1 H2 C2 H3 C3.
  split; [|split].
  - unfold default_retries.
    rewrite (queryWithRetry_retry _ _ _ _ _ _ H1 C1).
    rewrite (queryWithRetry_retry _ _ _ _ _ _ H2 C2).
    apply queryWithRetry_last. exact H3.
  - rewrite (pool_query_trace_eq _ _ _ _ _ H3). simpl.
    rewrite (pool_query_trace_eq _ _ _ _ _ H2). simpl.
    rewrite (pool_query_trace_eq _ _ _ _ _ H1).
    repeat rewrite <- app_assoc. reflexivity.
  - reflexivity.
Qed.

End Executor.

Lemma queryWithRetry_retries_twice_then_succeeds_witness :
  queryWithRetry stamp_sql [VStr "00001"; VNum 1] default_retries (outage 2 sample_table)
  = (Return (Header 1 (Some 0)),
     @mkWorld MySQL.server sample_table []
       [EQuery stamp_sql [VStr "00001"; VNum 1]; ESleep 1000;
        EQuery stamp_sql [VStr "00001"; VNum 1]; ESleep 1000;
        EQuery stamp_sql [VStr "00001"; VNum 1]])
  /\ queryWithRetry insert_sql [] default_retries
       (@mkWorld MySQL.server sample_table [Some "Duplicate entry"] [])
     = (Throw "Duplicate entry",
        @mkWorld MySQL.server sample_table [] [EQuery insert_sql []]).
Proof.
  split.
  - eapply (proj1 (queryWithRetry_retries_twice_then_succeeds (DB := MySQL.server))
              stamp_sql [VStr "00001"; VNum 1] (outage 2 sample_table)).
    + reflexivity.
    + reflexivity.
    + reflexivity.
    + reflexivity.
    + reflexivity.
  - eapply (proj2 (queryWithRetry_retries_twice_then_succeeds (DB := MySQL.server))
              insert_sql [] 2%nat).
    + reflexivity.
    + reflexivity.
Defined.

Lemma queryWithRetry_exhausted_throws_witness :
  queryWithRetry notifications_sql [VStr "2025-03-10"] default_retries
    (outage 3 sample_table)
  = (Throw closed_state_message,
     @mkWorld MySQL.server sample_table []
       [EQuery notifications_sql [VStr "2025-03-10"]; ESleep 1000;
        EQuery notifications_sql [VStr "2025-03-10"]; ESleep 1000;
        EQuery notifications_sql [VStr "2025-03-10"]]).
Proof.
  eapply (queryWithRetry_exhausted_throws (DB := MySQL.server)
            notifications_sql [VStr "2025-03-10"] (outage 3 sample_table)).
  - reflexivity.
  - reflexivity.
  - reflexivity.
  - reflexivity.
  - reflexivity.
  - reflexivity.
Defined.

(** C1 as stated fails: with every one of the three attempts of a SELECT
    failing in the closed state, the call throws instead of returning the
    empty row list; the same holds for a mutating statement and the
    zero-affected-rows header. *)
Lemma queryWithRetry_exhausted_does_not_return :
  fst (queryWithRetry notifications_sql [VStr "2025-03-10"] default_retries
         (outage 3 sample_table)) = Throw closed_state_message
  /\ fst (queryWithRetry notifications_sql [VStr "2025-03-10"] default_retries
            (outage 3 sample_table)) <> Return (Rows [])
  /\ includes "select" (toLowerCase notifications_sql) = true
  /\ fst (queryWithRetry stamp_sql [VStr "00001"; VNum 1] default_retries
            (outage 3 sample_table)) = Throw closed_state_message
  /\ fst (queryWithRetry stamp_sql [VStr "00001"; VNum 1] default_retries
            (outage 3 sample_table)) <> Return (Header 0 None)
  /\ includes "select" (toLowerCase stamp_sql) = false.
Proof.
  repeat split; try (vm_compute; reflexivity); vm_compute; discriminate.
Qed.

(** ** Authorization and required fields *)

Section Guards.

Context {DB : Database}.

(** C8.  A notifications request whose [admin] parameter is not exactly the
    string "true" is answered 403 and leaves the world as it was: no
    statement reaches the pool, no timer is set, the database is untouched. *)
Theorem get_notifications_requires_admin :
  forall (admin : option string) (tomorrow : JSDate) (w : World),
    admin <> Some "true" ->
    get_notifications admin tomorrow w
    = (Return (mkResponse 403 (BError "Access denied: Admin only")), w).
Proof.
  intros admin tomorrow w H. unfold get_notifications.
  destruct admin as [s|]; [|reflexivity].
  destruct (String.eqb_spec s "true") as [->|Hne]; [congruence|reflexivity].
Qed.

Lemma missing_fields_falsy (b : Req.Body) :
  Exists (fun v => truthy v = false) (fields b) -> missing_fields b = true.
Proof.
  unfold fields, missing_fields. intros H.
  repeat match goal with
         | H : Exists _ (_ :: _) |- _ => inversion H; clear H; subst
         | H : Exists _ [] |- _ => inversion H
         | H : truthy _ = false |- _ => rewrite H; clear H
         end;
    simpl; repeat rewrite orb_true_r; reflexivity.
Qed.

(** C9.  A create or update request whose body has every required key but a
    falsy value in at least one of them is answered 400 "All fields
    required", and the world is as it was before: the test is on
    truthiness. *)
Theorem falsy_field_is_rejected :
  forall (id : string) (b : Req.Body) (w : World),
    Forall (fun v => v <> VUndef) (fields b) ->
    Exists (fun v => truthy v = false) (fields b) ->
    post_bookings b w = (Return (mkResponse 400 (BError "All fields required")), w)
    /\ put_bookings_id id b w
       = (Return (mkResponse 400 (BError "All fields required")), w).
Proof.
  intros id b w _ H. apply missing_fields_falsy in H.
  unfold post_bookings, put_bookings_id. rewrite H. split; reflexivity.
Qed.

(** The update handler turns down a contact number that is not ten digits
    before any statement is issued. *)
Lemma put_bookings_id_invalid_contact :
  forall (id : string) (b : Req.Body) (w : World),
    test re_contact (Req.contactNumber b) = false ->
    exists message,
      put_bookings_id id b w = (Return (mkResponse 400 (BError message)), w).
Proof.
  intros id b w H. unfold put_bookings_id.
  destruct (missing_fields b); [eexists; reflexivity|].
  rewrite H. eexists. reflexivity.
Qed.

(** Every run of the executor only adds to the trace, and a run with a
    positive budget starts by handing the statement to the pool. *)
Lemma queryWithRetry_trace_extends sql params n :
  forall w, exists rest,
    trace (snd (queryWithRetry sql params n w)) = trace w ++ rest.
Proof.
  induction n as [|n IH]; intros w.
  - exists []. simpl. rewrite app_nil_r. reflexivity.
  - destruct (pool_query sql params w) as [[r|m] w1] eqn:E.
    + rewrite (queryWithRetry_success _ _ _ _ _ _ E). simpl.
      exists [EQuery sql params]. apply (pool_query_trace_eq _ _ _ _ _ E).
    + pose proof (pool_query_trace_eq _ _ _ _ _ E) as T.
      destruct n as [|n].
      * rewrite (queryWithRetry_last _ _ _ _ _ E). simpl. eauto.
      * destruct (includes "closed state" m) eqn:Hm.
        -- rewrite (queryWithRetry_retry _ _ _ _ _ _ E Hm).
           destruct (IH (emit (ESleep 1000) w1)) as [rest Hrest].
           rewrite Hrest. simpl. rewrite T.
           repeat rewrite <- app_assoc. eauto.
        -- rewrite (queryWithRetry_other _ _ _ _ _ _ E Hm). simpl. eauto.
Qed.

Lemma queryWithRetry_first_attempt sql params n :
  forall w, exists rest,
    trace (snd (queryWithRetry sql params (S n) w))
    = trace w ++ EQuery sql params :: rest.
Proof.
  intros w.
  destruct (pool_query sql params w) as [[r|m] w1] eqn:E;
    pose proof (pool_query_trace_eq _ _ _ _ _ E) as T.
  - rewrite (queryWithRetry_success _ _ _ _ _ _ E). simpl. eauto.
  - destruct n as [|n].
    + rewrite (queryWithRetry_last _ _ _ _ _ E). simpl. eauto.
    + destruct (includes "closed state" m) eqn:Hm.
      * rewrite (queryWithRetry_retry _ _ _ _ _ _ E Hm).
        destruct (queryWithRetry_trace_extends sql params (S n)
                    (emit (ESleep 1000) w1)) as [rest Hrest].
        rewrite Hrest. simpl. rewrite T.
        repeat rewrite <- app_assoc. simpl. eauto.
      * rewrite (queryWithRetry_other _ _ _ _ _ _ E Hm). simpl. eauto.
Qed.

(** The create handler has no such test: a complete body always sends the
    INSERT to the pool, whatever its contact number, and the answer is 201
    or 500, never 400. *)
Lemma post_bookings_complete_inserts :
  forall (b : Req.Body) (w : World),
    missing_fields b = false ->
    exists response rest,
      fst (post_bookings b w) = Return response
      /\ (status response = 201 \/ status response = 500)
      /\ trace (snd (post_bookings b w))
         = trace w ++ EQuery insert_sql (fields b) :: rest.
Proof.
  intros b w H. unfold post_bookings. rewrite H.
  change [Req.customerName b; Req.contactNumber b; Req.eventDate b;
          Req.eventTime b; Req.branch b; Req.selectedPackage b;
          Req.amount b; Req.celebrationType b] with (fields b).
  unfold try_catch, bind, default_retries.
  destruct (queryWithRetry_first_attempt insert_sql (fields b) 2 w) as [rest1 T1].
  destruct (queryWithRetry insert_sql (fields b) 3 w) as [[result|m] w1];
    simpl in T1.
  - set (bookingId := padStart 5 "0" (toString (insertId_of result))).
    destruct (queryWithRetry_trace_extends stamp_sql
                [VStr bookingId; insertId_of result] 3 w1) as [rest2 T2].
    destruct (queryWithRetry stamp_sql [VStr bookingId; insertId_of result] 3 w1)
      as [[r2|m2] w2]; simpl in T2; simpl;
      eexists; eexists; (split; [reflexivity|]); (split; [auto|]);
      rewrite T2, T1, <- app_assoc; reflexivity.
  - simpl. eexists; eexists. split; [reflexivity|]. split; [auto|]. exact T1.
Qed.

End Guards.

Lemma get_notifications_requires_admin_witness :
  get_notifications (Some "TRUE") (mkJSDate 10 2 2025 "2025-03-10")
    (quiet sample_table)
  = (Return (mkResponse 403 (BError "Access denied: Admin only")),
     quiet sample_table)
  /\ get_notifications None (mkJSDate 10 2 2025 "2025-03-10") (outage 1 sample_table)
     = (Return (mkResponse 403 (BError "Access denied: Admin only")),
        outage 1 sample_table).
Proof.
  split.
  - apply (get_notifications_requires_admin (DB := MySQL.server)). discriminate.
  - apply (get_notifications_requires_admin (DB := MySQL.server)). discriminate.
Defined.

Lemma falsy_field_is_rejected_witness :
  post_bookings zero_amount_body (quiet sample_table)
  = (Return (mkResponse 400 (BError "All fields required")), quiet sample_table)
  /\ put_bookings_id "2" zero_amount_body (quiet sample_table)
     = (Return (mkResponse 400 (BError "All fields required")), quiet sample_table).
Proof.
  apply (falsy_field_is_rejected (DB := MySQL.server)).
  - repeat constructor; discriminate.
  - unfold fields, zero_amount_body; simpl.
    do 6 apply Exists_cons_tl. apply Exists_cons_hd. reflexivity.
Defined.

(** C2 at a create request: the body is complete, its contact number "123"
    does not match the ten-digit pattern, and the create handler answers 201
    after inserting the row with that contact number. *)
Theorem post_bookings_accepts_short_contact :
  test re_contact (Req.contactNumber short_contact_body) = false
  /\ post_bookings short_contact_body (quiet sample_table)
     = (Return (mkResponse 201 (BCreated "Booking created" "00003")),
        @mkWorld MySQL.server
          (MySQL.mkTable
             [ann; bob;
              mkBooking 3 (Some "00003") "Cy" "123" "2025-04-01" "10:00:00"
                "Main" "Gold" 500 "Party"] 4)
          []
          [EQuery insert_sql (fields short_contact_body);
           EQuery stamp_sql [VStr "00003"; VNum 3]]).
Proof.
  split; reflexivity.
Qed.

(** ** The filter query builder *)

Module FilterFacts.

Import MySQL.

(** The six statements the builder can produce, as the server reads them. *)
Lemma parse_plain : parse filter_base = Some (Select [CTrue] false).
Proof. vm_compute. reflexivity. Qed.

Lemma parse_date :
  parse (filter_base ++ " AND eventDate = ?")%string
  = Some (Select [CTrue; CEventDate] false).
Proof. vm_compute. reflexivity. Qed.

Lemma parse_month_year :
  parse (filter_base ++ " AND MONTH(eventDate) = ? AND YEAR(eventDate) = ?")%string
  = Some (Select [CTrue; CMonth; CYear] false).
Proof. vm_compute. reflexivity. Qed.

Lemma parse_branch :
  parse ((filter_base) ++ " AND branch = ?")%string
  = Some (Select [CTrue; CBranch] false).
Proof. vm_compute. reflexivity. Qed.

Lemma parse_date_branch :
  parse ((filter_base ++ " AND eventDate = ?") ++ " AND branch = ?")%string
  = Some (Select [CTrue; CEventDate; CBranch] false).
Proof. vm_compute. reflexivity. Qed.

Lemma parse_month_year_branch :
  parse ((filter_base ++ " AND MONTH(eventDate) = ? AND YEAR(eventDate) = ?")
         ++ " AND branch = ?")%string
  = Some (Select [CTrue; CMonth; CYear; CBranch] false).
Proof. vm_compute. reflexivity. Qed.

Lemma matches_date_nonempty (d : string) :
  matches re_date d = true -> truthy (VStr d) = true.
Proof. destruct d; [discriminate|reflexivity]. Qed.

Lemma truthy_VStr (x : string) : truthy (VStr x) = true <-> x <> "".
Proof.
  simpl. destruct (String.eqb_spec x ""); simpl; split; congruence.
Qed.

Lemma filter_dated_inv (q : FilterQuery) (head : string) (hps : list Val) :
  filter_dated q = inr (head, hps) -> Dated q head hps.
Proof.
  unfold filter_dated. cbv zeta.
  destruct (truthy (qval (date q))) eqn:Td.
  - destruct (date q) as [d|] eqn:Hd; [|discriminate Td]. simpl qval.
    destruct (test re_date (VStr d)) eqn:Rd; simpl negb; cbv iota;
      intros H; [|discriminate H].
    injection H as <- <-. apply dated_by_date with (d := d); auto.
  - destruct (truthy (qval (month q)) && truthy (qval (year q))) eqn:My.
    + apply andb_prop in My. destruct My as [Tm Ty].
      destruct (month q) as [m|] eqn:Hm; [|discriminate Tm].
      destruct (year q) as [y|] eqn:Hy; [|discriminate Ty].
      simpl qval. simpl toString.
      destruct (parseInt m) as [monthNum|] eqn:Pm; [|intros H; discriminate H].
      destruct (parseInt y) as [yearNum|] eqn:Py; [|intros H; discriminate H].
      destruct ((monthNum <? 1) || (monthNum >? 12) || (yearNum <? 1000)) eqn:Range;
        intros H; [discriminate H|].
      injection H as <- <-.
      apply orb_false_elim in Range. destruct Range as [Range Ry].
      apply orb_false_elim in Range. destruct Range as [R1 R12].
      apply dated_by_month with (m := m) (y := y); auto; lia.
    + intros H. injection H as <- <-. apply dated_not; auto.
Qed.

Lemma filter_build_inv (q : FilterQuery) (sql : string) (ps : list Val) :
  filter_build q = inr (sql, ps) -> Built q sql ps.
Proof.
  unfold filter_build.
  destruct (filter_dated q) as [response|[head hps]] eqn:E; [discriminate|].
  apply filter_dated_inv in E.
  destruct (branch_param q) as [b|] eqn:Hb.
  - simpl qval. simpl toString.
    destruct (String.eqb_spec b "") as [->|Hne].
    + simpl. intros H. injection H as <- <-.
      apply built_without_branch; auto.
    + destruct (String.eqb_spec b "All") as [->|Hall].
      * simpl. intros H. injection H as <- <-.
        apply built_without_branch; auto.
      * replace (truthy (VStr b)) with true
          by (symmetry; apply truthy_VStr; exact Hne).
        simpl. intros H. injection H as <- <-.
        apply built_with_branch; auto.
  - simpl. intros H. injection H as <- <-.
    apply built_without_branch; auto.
Qed.

(** C7.  Whenever the builder produces a statement, the number of [?] in
    its text equals the number of parameters, and binding the placeholders
    to the parameters from left to right gives every condition the value
    meant for it: the date to [eventDate = ?], the parsed month and year to
    the MONTH and YEAR conditions in that order, the branch to
    [branch = ?]; no parameter is left over. *)
Theorem filter_build_parameters_follow_placeholders :
  forall (q : FilterQuery) (sql : string) (ps : list Val),
    filter_build q = inr (sql, ps) ->
    count_char "?" sql = List.length ps
    /\ exists conds bound,
        parse sql = Some (Select conds false)
        /\ bind_conds conds ps = Some bound
        /\ Forall (fun '(c, v) => intended q c v) bound
        /\ map snd (filter (fun '(c, _) => has_placeholder c) bound) = ps.
Proof.
  intros q sql ps H. apply filter_build_inv in H.
  destruct H as [head hps b D Hb Hne Hall | head hps D Hb];
    destruct D as [d Hd Rd | m y monthNum yearNum Td Hm Hy Pm Py Rm Ry | Td My].
  - split; [vm_compute; reflexivity|].
    exists [CTrue; CEventDate; CBranch]. eexists.
    split; [exact parse_date_branch|]. split; [reflexivity|].
    split; [|reflexivity].
    repeat constructor; simpl; rewrite ?Hd, ?Hb; reflexivity.
  - split; [vm_compute; reflexivity|].
    exists [CTrue; CMonth; CYear; CBranch]. eexists.
    split; [exact parse_month_year_branch|]. split; [reflexivity|].
    split; [|reflexivity].
    repeat constructor; simpl; rewrite ?Hm, ?Hy, ?Hb; simpl;
      rewrite ?Pm, ?Py; reflexivity.
  - split; [vm_compute; reflexivity|].
    exists [CTrue; CBranch]. eexists.
    split; [exact parse_branch|]. split; [reflexivity|].
    split; [|reflexivity].
    repeat constructor; simpl; rewrite ?Hb; reflexivity.
  - split; [vm_compute; reflexivity|].
    exists [CTrue; CEventDate]. eexists.
    split; [exact parse_date|]. split; [reflexivity|].
    split; [|reflexivity].
    repeat constructor; simpl; rewrite ?Hd; reflexivity.
  - split; [vm_compute; reflexivity|].
    exists [CTrue; CMonth; CYear]. eexists.
    split; [exact parse_month_year|]. split; [reflexivity|].
    split; [|reflexivity].
    repeat constructor; simpl; rewrite ?Hm, ?Hy; simpl;
      rewrite ?Pm, ?Py; reflexivity.
  - split; [vm_compute; reflexivity|].
    exists [CTrue]. eexists.
    split; [exact parse_plain|]. split; [reflexivity|].
    split; [|reflexivity].
    repeat constructor.
Qed.

Lemma filter_build_parameters_follow_placeholders_witness :
  count_char "?"
    ((filter_base ++ " AND MONTH(eventDate) = ? AND YEAR(eventDate) = ?")
     ++ " AND branch = ?")%string
  = List.length [VNum 3; VNum 2025; VStr "East"]
  /\ exists conds bound,
      parse ((filter_base ++ " AND MONTH(eventDate) = ? AND YEAR(eventDate) = ?")
             ++ " AND branch = ?")%string
      = Some (Select conds false)
      /\ bind_conds conds [VNum 3; VNum 2025; VStr "East"] = Some bound
      /\ Forall (fun '(c, v) => intended march_east c v) bound
      /\ map snd (filter (fun '(c, _) => has_placeholder c) bound)
         = [VNum 3; VNum 2025; VStr "East"].
Proof.
  apply (filter_build_parameters_follow_placeholders march_east).
  reflexivity.
Defined.

(** *** Reading through the executor on the MySQL model *)

(** A statement that succeeds without changing the table is answered with
    its result, unless a scripted fault makes the call throw. *)
Lemma queryWithRetry_reads (sql : string) (ps : list Val) (n : nat) :
  forall (w : @World server) (r : QResult),
    exec (db w) sql ps = (Return r, db w) ->
    (exists w', queryWithRetry sql ps (S n) w = (Return r, w') /\ db w' = db w)
    \/ (exists m w', queryWithRetry sql ps (S n) w = (Throw m, w')
                     /\ db w' = db w /\ faults w <> []).
Proof.
  induction n as [|n IH]; intros w r E.
  - destruct (faults w) as [|[m|] rest] eqn:F.
    + left. eexists. split.
      * apply queryWithRetry_success. unfold pool_query. rewrite F.
        simpl db_exec. rewrite E. reflexivity.
      * reflexivity.
    + right. exists m. eexists. split; [|split].
      * apply queryWithRetry_last. unfold pool_query. rewrite F. reflexivity.
      * reflexivity.
      * discriminate.
    + left. eexists. split.
      * apply queryWithRetry_success. unfold pool_query. rewrite F.
        simpl db_exec. rewrite E. reflexivity.
      * reflexivity.
  - destruct (faults w) as [|[m|] rest] eqn:F.
    + left. eexists. split.
      * apply queryWithRetry_success. unfold pool_query. rewrite F.
        simpl db_exec. rewrite E. reflexivity.
      * reflexivity.
    + assert (P : pool_query sql ps w
                  = (Throw m, mkWorld (db w) rest (trace w ++ [EQuery sql ps]))).
      { unfold pool_query. rewrite F. reflexivity. }
      destruct (includes "closed state" m) eqn:Hm.
      * rewrite (queryWithRetry_retry _ _ _ _ _ _ P Hm).
        destruct (IH (emit (ESleep 1000)
                        (mkWorld (db w) rest (trace w ++ [EQuery sql ps]))) r E)
          as [[w' [Q D]]|[m' [w' [Q [D _]]]]].
        -- left. exists w'. split; [exact Q|exact D].
        -- right. exists m', w'. split; [exact Q|]. split; [exact D|discriminate].
      * right. exists m. eexists. split; [|split].
        -- apply queryWithRetry_other; [exact P|exact Hm].
        -- reflexivity.
        -- discriminate.
    + left. eexists. split.
      * apply queryWithRetry_success. unfold pool_query. rewrite F.
        simpl db_exec. rewrite E. reflexivity.
      * reflexivity.
Qed.

(** The filter handler on a statement that reads [rows]. *)
Lemma get_bookings_filter_reads (q : FilterQuery) (sql : string) (ps : list Val)
      (w : @World server) (results : list Booking) :
  filter_build q = inr (sql, ps) ->
  exec (db w) sql ps = (Return (Rows results), db w) ->
  (faults w = [] ->
   fst (get_bookings_filter q w) = Return (filter_answer results))
  /\ (fst (get_bookings_filter q w) = Return (filter_answer results)
      \/ exists message,
          fst (get_bookings_filter q w)
          = Return (mkResponse 500
                      (BError ("Error fetching filtered bookings: " ++ message)%string))).
Proof.
  intros B E.
  assert (G : fst (get_bookings_filter q w) = Return (filter_answer results)
              \/ (faults w <> [] /\ exists message,
                     fst (get_bookings_filter q w)
                     = Return (mkResponse 500
                                 (BError ("Error fetching filtered bookings: "
                                          ++ message)%string)))).
  { unfold get_bookings_filter. rewrite B. unfold try_catch, bind, default_retries.
    destruct (queryWithRetry_reads sql ps 2 w _ E)
      as [[w' [Q _]]|[m [w' [Q [_ N]]]]]; rewrite Q.
    - left. destruct results; reflexivity.
    - right. split; [exact N|]. exists m. reflexivity. }
  split.
  - intros F. destruct G as [G|[N _]]; [exact G|contradiction].
  - destruct G as [G|[_ G]]; [left; exact G|right; exact G].
Qed.

(** *** What the statements of the builder select *)

Lemma exec_plain (t : Table) :
  exec t filter_base [] = (Return (Rows (map present (rows t))), t).
Proof.
  unfold exec. rewrite parse_plain. unfold run_select. simpl bind_conds.
  cbv beta iota zeta.
  assert (All : forall l, filter (satisfies [(CTrue, VUndef)]) l = l).
  { induction l as [|r l IH]; [reflexivity|]. simpl. rewrite IH. reflexivity. }
  rewrite All. reflexivity.
Qed.

Lemma exec_date (t : Table) (d : string) :
  exec t (filter_base ++ " AND eventDate = ?")%string [VStr d]
  = (Return (Rows (map present (filter (wanted_on d None) (rows t)))), t).
Proof.
  unfold exec. rewrite parse_date. unfold run_select. simpl bind_conds.
  cbv beta iota zeta.
  rewrite (filter_ext (satisfies [(CTrue, VUndef); (CEventDate, VStr d)])
             (wanted_on d None)); [reflexivity|].
  intros r. unfold wanted_on. simpl.
  rewrite (String.eqb_sym d). reflexivity.
Qed.

Lemma exec_date_branch (t : Table) (d b : string) :
  b <> "" -> b <> "All" ->
  exec t ((filter_base ++ " AND eventDate = ?") ++ " AND branch = ?")%string
    [VStr d; VStr b]
  = (Return (Rows (map present (filter (wanted_on d (Some b)) (rows t)))), t).
Proof.
  intros Hne Hall.
  unfold exec. rewrite parse_date_branch. unfold run_select. simpl bind_conds.
  cbv beta iota zeta.
  rewrite (filter_ext
             (satisfies [(CTrue, VUndef); (CEventDate, VStr d); (CBranch, VStr b)])
             (wanted_on d (Some b))); [reflexivity|].
  intros r. unfold wanted_on. simpl.
  apply String.eqb_neq in Hne. apply String.eqb_neq in Hall.
  rewrite Hne, Hall. simpl.
  rewrite (String.eqb_sym d), (String.eqb_sym b), andb_true_r. reflexivity.
Qed.

Lemma filter_build_date (d : string) (m y br : option string) :
  matches re_date d = true ->
  filter_build (mkFilterQuery (Some d) m y br)
  = match br with
    | Some b =>
        if (b =? "")%string || (b =? "All")%string
        then inr ((filter_base ++ " AND eventDate = ?")%string, [VStr d])
        else inr (((filter_base ++ " AND eventDate = ?") ++ " AND branch = ?")%string,
                  [VStr d; VStr b])
    | None => inr ((filter_base ++ " AND eventDate = ?")%string, [VStr d])
    end.
Proof.
  intros Rd. unfold filter_build, filter_dated. cbv zeta. simpl date. simpl qval.
  rewrite (matches_date_nonempty d Rd).
  unfold test. simpl toString. rewrite Rd. simpl negb. cbv iota.
  destruct br as [b|]; [|reflexivity].
  simpl branch_param. simpl qval. simpl toString. simpl truthy.
  destruct (b =? "")%string; destruct (b =? "All")%string; reflexivity.
Qed.

(** C3, as the code has it.  A filter request whose date is present and
    matches YYYY-MM-DD is answered from exactly the rows of that date which
    also are of the requested branch, when a branch is given that is neither
    empty nor "All"; month and year play no part.  With no connection fault
    pending the answer is 200 with these rows in their presented form, or
    404 when there is none; with faults pending it is that answer or a 500. *)
Theorem filter_by_date_selects_date_and_branch :
  forall (w : @World server) (d : string) (m y br : option string),
    matches re_date d = true ->
    let response := fst (get_bookings_filter (mkFilterQuery (Some d) m y br) w) in
    let expected :=
      filter_answer (map present (filter (wanted_on d br) (rows (db w)))) in
    (faults w = [] -> response = Return expected)
    /\ (response = Return expected
        \/ exists message,
            response
            = Return (mkResponse 500
                        (BError ("Error fetching filtered bookings: " ++ message)%string))).
Proof.
  intros w d m y br Rd. cbv zeta.
  pose proof (filter_build_date d m y br Rd) as B.
  destruct br as [b|].
  - destruct (String.eqb_spec b "") as [->|Hne].
    + simpl in B.
      apply (get_bookings_filter_reads _ _ _ w _ B).
      rewrite exec_date. reflexivity.
    + destruct (String.eqb_spec b "All") as [->|Hall].
      * simpl in B.
        apply (get_bookings_filter_reads _ _ _ w _ B).
        rewrite exec_date. reflexivity.
      * simpl in B.
        apply (get_bookings_filter_reads _ _ _ w _ B).
        apply exec_date_branch; assumption.
  - apply (get_bookings_filter_reads _ _ _ w _ B). apply exec_date.
Qed.

Lemma filter_by_date_selects_date_and_branch_witness :
  fst (get_bookings_filter
         (mkFilterQuery (Some "2025-03-10") (Some "7") (Some "1999") (Some "East"))
         (quiet sample_table))
  = Return (filter_answer
              (map present
                 (filter (wanted_on "2025-03-10" (Some "East")) (rows sample_table)))).
Proof.
  apply (proj1 (filter_by_date_selects_date_and_branch (quiet sample_table)
                  "2025-03-10" (Some "7") (Some "1999") (Some "East") eq_refl)).
  reflexivity.
Defined.

(** C3 as stated fails: both sample bookings are on 2025-03-10, and the
    request for that date at the East branch is answered 200 with one of
    them only. *)
Lemma filter_by_date_applies_branch :
  fst (get_bookings_filter
         (mkFilterQuery (Some "2025-03-10") None None (Some "East"))
         (quiet sample_table))
  = Return (mkResponse 200 (BResult (Rows [present bob])))
  /\ filter (fun r => (eventDate r =? "2025-03-10")%string) (rows sample_table)
     = [ann; bob]
  /\ [present bob] <> map present [ann; bob].
Proof.
  split; [reflexivity|]. split; [reflexivity|]. discriminate.
Qed.

(** C6, as the code has it.  A request carrying only branch "All" builds
    the same statement and parameters as a request with no parameter, so the
    two are answered alike in every world; on the MySQL model with no fault
    pending the answer lists every row.  The branch condition is left out
    exactly when branch is absent, empty, or "All". *)
Theorem branch_All_same_as_no_branch :
  (forall (DB : Database) (w : @World DB),
      get_bookings_filter (mkFilterQuery None None None (Some "All")) w
      = get_bookings_filter (mkFilterQuery None None None None) w)
  /\ filter_build (mkFilterQuery None None None (Some "All")) = inr (filter_base, [])
  /\ filter_build (mkFilterQuery None None None None) = inr (filter_base, [])
  /\ (forall w : @World server,
         faults w = [] ->
         fst (get_bookings_filter (mkFilterQuery None None None (Some "All")) w)
         = Return (filter_answer (map present (rows (db w)))))
  /\ (forall (q : FilterQuery) (sql : string) (ps : list Val),
         filter_build q = inr (sql, ps) ->
         (includes " AND branch = ?" sql = false
          <-> branch_param q = None \/ branch_param q = Some ""
              \/ branch_param q = Some "All")).
Proof.
  split; [reflexivity|]. split; [reflexivity|]. split; [reflexivity|]. split.
  - intros w F.
    apply (proj1 (get_bookings_filter_reads
                    (mkFilterQuery None None None (Some "All"))
                    filter_base [] w (map present (rows (db w)))
                    eq_refl (exec_plain (db w)))).
    exact F.
  - intros q sql ps H. apply filter_build_inv in H.
    destruct H as [head hps b D Hb Hne Hall | head hps D Hb].
    + assert (I : includes " AND branch = ?" (head ++ " AND branch = ?")%string = true)
        by (destruct D; vm_compute; reflexivity).
      rewrite I. split; [discriminate|].
      rewrite Hb. intros [N|[N|N]]; congruence.
    + assert (I : includes " AND branch = ?" head = false)
        by (destruct D; vm_compute; reflexivity).
      rewrite I. split; [intros _; exact Hb|reflexivity].
Qed.

Lemma branch_All_same_as_no_branch_witness :
  fst (get_bookings_filter (mkFilterQuery None None None (Some "All"))
         (quiet sample_table))
  = Return (filter_answer (map present (rows sample_table)))
  /\ (includes " AND branch = ?"
        ((filter_base ++ " AND MONTH(eventDate) = ? AND YEAR(eventDate) = ?")
         ++ " AND branch = ?")%string = false
      <-> branch_param march_east = None \/ branch_param march_east = Some ""
          \/ branch_param march_east = Some "All").
Proof.
  split.
  - apply (proj1 (proj2 (proj2 (proj2 branch_All_same_as_no_branch)))
             (quiet sample_table)).
    reflexivity.
  - apply (proj2 (proj2 (proj2 (proj2 branch_All_same_as_no_branch)))
             march_east _ [VNum 3; VNum 2025; VStr "East"]).
    reflexivity.
Defined.

(** C6 as stated fails at the empty branch: [?branch=] gives the handler a
    branch that is present and is not "All", and the branch condition is
    left out all the same. *)
Lemma empty_branch_is_left_out :
  filter_build (mkFilterQuery None None None (Some "")) = inr (filter_base, [])
  /\ includes " AND branch = ?" filter_base = false
  /\ Some "" <> (None : option string)
  /\ Some "" <> Some "All".
Proof.
  split; [reflexivity|]. split; [vm_compute; reflexivity|].
  split; discriminate.
Qed.

End FilterFacts.

(** ** Notifications *)

Module NotificationFacts.

Import MySQL.

Lemma parse_notifications : parse notifications_sql = Some (Select [CEventDate] true).
Proof. vm_compute. reflexivity. Qed.

Lemma exec_notifications (t : Table) (d : string) :
  exec t notifications_sql [VStr d] = (Return (Rows (bookings_on d t)), t).
Proof.
  unfold exec. rewrite parse_notifications. unfold run_select. simpl bind_conds.
  cbv beta iota zeta. unfold bookings_on.
  rewrite (filter_ext (satisfies [(CEventDate, VStr d)])
             (fun r => (eventDate r =? d)%string)); [reflexivity|].
  intros r. simpl. rewrite (String.eqb_sym d), andb_true_r. reflexivity.
Qed.

(** Insertion keeps a list in ascending order of [eventTime]. *)
Lemma insert_by_eventTime_hd (r x : Booking) (l : list Booking) :
  time_le x r -> HdRel time_le x l -> HdRel time_le x (insert_by_eventTime r l).
Proof.
  intros Hxr Hd. destruct l as [|y l]; simpl.
  - constructor. exact Hxr.
  - destruct (String.leb (eventTime r) (eventTime y)).
    + constructor. exact Hxr.
    + constructor. inversion Hd; assumption.
Qed.

Lemma insert_by_eventTime_sorted (r : Booking) (l : list Booking) :
  Sorted time_le l -> Sorted time_le (insert_by_eventTime r l).
Proof.
  induction l as [|x l IH]; intros S; simpl.
  - repeat constructor.
  - destruct (String.leb (eventTime r) (eventTime x)) eqn:E.
    + constructor; [exact S|]. constructor. exact E.
    + inversion S as [|? ? S' Hd]; subst. constructor.
      * apply IH. exact S'.
      * apply insert_by_eventTime_hd; [|exact Hd].
        unfold time_le.
        destruct (String.leb_total (eventTime x) (eventTime r)) as [T|T];
          [exact T|congruence].
Qed.

Lemma order_by_eventTime_sorted (l : list Booking) :
  Sorted time_le (order_by_eventTime l).
Proof.
  induction l as [|r l IH]; simpl.
  - constructor.
  - apply insert_by_eventTime_sorted. exact IH.
Qed.

Lemma insert_by_eventTime_perm (r : Booking) (l : list Booking) :
  Permutation (insert_by_eventTime r l) (r :: l).
Proof.
  induction l as [|x l IH]; simpl; [apply Permutation_refl|].
  destruct (String.leb (eventTime r) (eventTime x)); [apply Permutation_refl|].
  eapply perm_trans; [apply perm_skip; exact IH|apply perm_swap].
Qed.

(** Ordering neither drops nor adds a row. *)
Lemma order_by_eventTime_perm (l : list Booking) :
  Permutation (order_by_eventTime l) l.
Proof.
  induction l as [|r l IH]; simpl; [constructor|].
  eapply perm_trans; [apply insert_by_eventTime_perm|].
  apply perm_skip. exact IH.
Qed.

(** Cutting two texts to the same length keeps their order. *)
Lemma leb_substring (n : nat) :
  forall a b : string,
    String.leb a b = true ->
    String.leb (String.substring 0 n a) (String.substring 0 n b) = true.
Proof.
  unfold String.leb.
  induction n as [|n IH]; intros a b H.
  - destruct a, b; reflexivity.
  - destruct a as [|x a], b as [|y b]; simpl in *; try reflexivity; try discriminate.
    destruct (Ascii.compare x y) eqn:C; try reflexivity; try discriminate.
    apply IH. exact H.
Qed.

Lemma present_sorted (l : list Booking) :
  Sorted time_le l -> Sorted time_le (map present l).
Proof.
  induction l as [|x l IH]; intros S; simpl.
  - constructor.
  - inversion S as [|? ? S' Hd]; subst. constructor.
    + apply IH. exact S'.
    + destruct l as [|y l]; simpl; constructor.
      inversion Hd; subst. unfold time_le, present, time_format. simpl.
      apply leb_substring. assumption.
Qed.

Lemma bookings_on_sorted (d : string) (t : Table) : Sorted time_le (bookings_on d t).
Proof.
  unfold bookings_on. apply present_sorted. apply order_by_eventTime_sorted.
Qed.

(** C10.  An authorized notifications request is answered 200 with the
    bookings of tomorrow's date in ascending order of [eventTime], each of
    them once: always when no connection fault is pending, and otherwise
    unless the faults make the answer a 500. *)
Theorem notifications_sorted_by_eventTime :
  forall (w : @World server) (tomorrow : JSDate),
    let response := fst (get_notifications (Some "true") tomorrow w) in
    let bookings := bookings_on (isoDate tomorrow) (db w) in
    Sorted time_le bookings
    /\ (exists arranged,
          bookings = map present arranged
          /\ Sorted time_le arranged
          /\ Permutation arranged
               (filter (fun r => (eventDate r =? isoDate tomorrow)%string)
                  (rows (db w))))
    /\ (faults w = [] -> response = Return (notifications_answer tomorrow bookings))
    /\ (response = Return (notifications_answer tomorrow bookings)
        \/ exists message,
            response
            = Return (mkResponse 500
                        (BError ("Error fetching notifications: " ++ message)%string))).
Proof.
  intros w tomorrow. cbv zeta.
  split; [apply bookings_on_sorted|].
  split.
  { eexists. split; [reflexivity|]. split.
    - apply order_by_eventTime_sorted.
    - apply order_by_eventTime_perm. }
  assert (G : fst (get_notifications (Some "true") tomorrow w)
              = Return (notifications_answer tomorrow
                          (bookings_on (isoDate tomorrow) (db w)))
              \/ (faults w <> [] /\ exists message,
                     fst (get_notifications (Some "true") tomorrow w)
                     = Return (mkResponse 500
                                 (BError ("Error fetching notifications: "
                                          ++ message)%string)))).
  { unfold get_notifications. cbv zeta.
    change ("true" =? "true")%string with true.
    change (negb true) with false. cbv iota.
    unfold try_catch, bind, default_retries.
    destruct (FilterFacts.queryWithRetry_reads notifications_sql
                [VStr (isoDate tomorrow)] 2 w _
                (exec_notifications (db w) (isoDate tomorrow)))
      as [[w' [Q _]]|[m [w' [Q [_ N]]]]]; rewrite Q.
    - left. reflexivity.
    - right. split; [exact N|]. exists m. reflexivity. }
  split.
  - intros F. destruct G as [G|[N _]]; [exact G|contradiction].
  - destruct G as [G|[_ G]]; [left; exact G|right; exact G].
Qed.

Lemma notifications_sorted_by_eventTime_witness :
  fst (get_notifications (Some "true") march_10 (quiet sample_table))
  = Return (notifications_answer march_10 [present bob; present ann])
  /\ Sorted time_le [present bob; present ann].
Proof.
  split.
  - apply (proj1 (proj2 (proj2 (notifications_sorted_by_eventTime
                                  (quiet sample_table) march_10)))).
    reflexivity.
  - apply (proj1 (notifications_sorted_by_eventTime (quiet sample_table) march_10)).
Defined.

End NotificationFacts.

(** ** Decimal numerals: printing, padding and reading back *)

Module NumeralFacts.

Lemma digit_value_is_digit (c : ascii) :
  is_digit c = true -> exists v, digit_value 10 c = Some v.
Proof.
  unfold is_digit, digit_value. intros H.
  apply andb_prop in H. destruct H as [H1 H2].
  apply Nat.leb_le in H1. apply Nat.leb_le in H2.
  assert (L1 : (48 <=? Z.of_nat (nat_of_ascii c)) = true) by (apply Z.leb_le; lia).
  assert (L2 : (Z.of_nat (nat_of_ascii c) <=? 57) = true) by (apply Z.leb_le; lia).
  rewrite L1, L2. simpl andb. cbv iota.
  assert (L3 : (Z.of_nat (nat_of_ascii c) - 48 <? 10) = true) by (apply Z.ltb_lt; lia).
  rewrite L3. eauto.
Qed.

Lemma is_digit_not (c x : ascii) : is_digit c = true -> is_digit x = false -> c <> x.
Proof. intros H1 H2 E. subst. congruence. Qed.

(** On a non-empty text of digits [parseInt] reads the whole text in base
    ten. *)
Lemma parseInt_only_digits (s : string) :
  only_digits s = true -> s <> "" ->
  parseInt s = Some (digits_value 10 (leading_digits 10 s)).
Proof.
  destruct s as [|c rest]; [congruence|]. intros D _.
  simpl in D. apply andb_prop in D. destruct D as [Dc Dr].
  unfold parseInt.
  assert (Sp : is_space c = false).
  { unfold is_digit in Dc. unfold is_space.
    apply andb_prop in Dc. destruct Dc as [H1 H2].
    apply Nat.leb_le in H1. apply Nat.leb_le in H2.
    apply orb_false_intro.
    - apply Nat.eqb_neq. lia.
    - apply andb_false_intro2. apply Nat.leb_gt. lia. }
  unfold trimStart. rewrite Sp.
  assert (M : Ascii.eqb c "-" = false)
    by (apply Ascii.eqb_neq; apply is_digit_not; [exact Dc|reflexivity]).
  assert (P : Ascii.eqb c "+" = false)
    by (apply Ascii.eqb_neq; apply is_digit_not; [exact Dc|reflexivity]).
  rewrite M, P.
  assert (X : forall x : ascii, is_digit x = false ->
                String.prefix (String "0" (String x "")) (String c rest) = false).
  { intros x Nx.
    change (String.prefix (String "0" (String x "")) (String c rest))
      with (if ascii_dec "0" c then String.prefix (String x "") rest else false).
    destruct (ascii_dec "0" c); [|reflexivity].
    destruct rest as [|c' rest']; [reflexivity|].
    change (String.prefix (String x "") (String c' rest'))
      with (if ascii_dec x c' then String.prefix "" rest' else false).
    simpl in Dr. apply andb_prop in Dr. destruct Dr as [Dc' _].
    destruct (ascii_dec x c') as [E|]; [|reflexivity].
    subst c'. congruence. }
  rewrite (X "x"%char eq_refl), (X "X"%char eq_refl). simpl orb. cbv iota.
  destruct (digit_value_is_digit c Dc) as [v Hv].
  simpl leading_digits. rewrite Hv.
  rewrite Z.mul_1_l. reflexivity.
Qed.

Lemma string_of_uint_digits (d : Decimal.uint) :
  only_digits (NilEmpty.string_of_uint d) = true
  /\ leading_digits 10 (NilEmpty.string_of_uint d) = uint_digits d.
Proof.
  induction d; simpl NilEmpty.string_of_uint; simpl uint_digits;
    try (split; reflexivity);
    destruct IHd as [O L]; (split; [simpl only_digits; rewrite O; reflexivity|]);
    simpl leading_digits; rewrite L; reflexivity.
Qed.

Lemma digits_value_acc (d : Decimal.uint) :
  forall acc : positive,
    fold_left (fun a x => a * 10 + x) (uint_digits d) (Z.pos acc)
    = Z.pos (Pos.of_uint_acc d acc).
Proof.
  induction d; intros acc; cbn [uint_digits fold_left Pos.of_uint_acc];
    try reflexivity;
    rewrite <- IHd; f_equal; lia.
Qed.

Lemma digits_value_uint (d : Decimal.uint) :
  digits_value 10 (uint_digits d) = Z.of_N (Pos.of_uint d).
Proof.
  unfold digits_value.
  induction d; cbn [uint_digits fold_left Pos.of_uint];
    try reflexivity; try exact IHd;
    match goal with
    | |- fold_left _ _ ?a = _ => change a with (Z.pos (Z.to_pos a))
    end;
    rewrite digits_value_acc; reflexivity.
Qed.

Lemma leading_zeros (k : nat) (s : string) :
  only_digits (repeat_char "0" k ++ s)%string = only_digits s
  /\ digits_value 10 (leading_digits 10 (repeat_char "0" k ++ s)%string)
     = digits_value 10 (leading_digits 10 s).
Proof.
  induction k as [|k [IH1 IH2]]; [split; reflexivity|].
  split.
  - simpl. exact IH1.
  - simpl repeat_char. simpl String.append. simpl leading_digits.
    change (digit_value 10 "0") with (Some 0). cbv iota.
    unfold digits_value in *. simpl fold_left. exact IH2.
Qed.

Lemma decimal_digits (n : Z) :
  0 <= n ->
  only_digits (decimal n) = true /\ decimal n <> ""
  /\ digits_value 10 (leading_digits 10 (decimal n)) = n.
Proof.
  intros H. unfold decimal. destruct n as [|p|p]; [| |lia].
  - repeat split. discriminate.
  - simpl Z.to_int. unfold NilZero.string_of_int, NilZero.string_of_uint.
    pose proof (DecimalPos.Unsigned.to_uint_nonnil p) as NN.
    destruct (Pos.to_uint p) eqn:E; [congruence| | | | | | | | | |];
      rewrite <- E;
      (destruct (string_of_uint_digits (Pos.to_uint p)) as [O L];
       split; [exact O|]; split;
       [ rewrite E; discriminate
       | rewrite L, digits_value_uint, DecimalPos.Unsigned.of_to; reflexivity ]).
Qed.

(** Reading a padded numeral back gives the number. *)
Lemma parseInt_padStart_decimal (width : nat) (n : Z) :
  0 <= n -> parseInt (padStart width "0" (decimal n)) = Some n.
Proof.
  intros H. destruct (decimal_digits n H) as [O [NE V]].
  unfold padStart.
  destruct (leading_zeros (width - String.length (decimal n)) (decimal n)) as [Z1 Z2].
  rewrite parseInt_only_digits.
  - rewrite Z2, V. reflexivity.
  - rewrite Z1. exact O.
  - destruct (decimal n); [congruence|].
    destruct (width - String.length (String a s))%nat; discriminate.
Qed.

Lemma length_append (a b : string) :
  String.length (a ++ b)%string = (String.length a + String.length b)%nat.
Proof. induction a; simpl; [reflexivity|]. rewrite IHa. reflexivity. Qed.

Lemma length_repeat_char (c : ascii) (k : nat) : String.length (repeat_char c k) = k.
Proof. induction k; simpl; [reflexivity|]. rewrite IHk. reflexivity. Qed.

Lemma length_padStart (width : nat) (c : ascii) (s : string) :
  String.length (padStart width c s) = Nat.max width (String.length s).
Proof.
  unfold padStart. rewrite length_append, length_repeat_char. lia.
Qed.

Lemma holds_from_spec (p : Z -> bool) (count : nat) :
  forall from k,
    holds_from p from count = true ->
    from <= k < from + Z.of_nat count -> p k = true.
Proof.
  induction count as [|count IH]; intros from k H R; [lia|].
  simpl in H. apply andb_prop in H. destruct H as [H0 H1].
  destruct (Z.eq_dec k from) as [->|N]; [exact H0|].
  apply (IH (from + 1)); [exact H1|lia].
Qed.

Lemma decimal_at_most_five_check :
  holds_from (fun k => (String.length (decimal k) <=? 5)%nat) 0 (Z.to_nat 100000)
  = true.
Proof. vm_compute. reflexivity. Qed.

(** Numbers up to 99999 have at most five digits. *)
Lemma decimal_at_most_five (n : Z) :
  0 <= n <= 99999 -> (String.length (decimal n) <= 5)%nat.
Proof.
  intros R. apply Nat.leb_le.
  apply (holds_from_spec _ (Z.to_nat 100000) 0 n decimal_at_most_five_check).
  rewrite Z2Nat.id; lia.
Qed.

End NumeralFacts.

(** ** Creating a booking *)

Module CreateFacts.

Import MySQL.

Lemma parse_insert : parse insert_sql = Some Insert.
Proof. vm_compute. reflexivity. Qed.

Lemma parse_stamp : parse stamp_sql = Some Stamp.
Proof. vm_compute. reflexivity. Qed.

(** With no fault pending, a statement that succeeds is run once. *)
Lemma queryWithRetry_quiet (sql : string) (ps : list Val) (n : nat)
      (t t' : Table) (tr : list Event) (r : QResult) :
  exec t sql ps = (Return r, t') ->
  queryWithRetry sql ps (S n) (@mkWorld server t [] tr)
  = (Return r, @mkWorld server t' [] (tr ++ [EQuery sql ps])).
Proof.
  intros E. apply queryWithRetry_success.
  unfold pool_query. cbn [faults db trace]. simpl db_exec. rewrite E. reflexivity.
Qed.

Lemma matches_nonempty (p : list CharClass) (x : string) :
  p <> [] -> matches p x = true -> x <> "".
Proof. intros Hp H E. subst. destruct p; [congruence|discriminate]. Qed.

Lemma sql_time_accepts (time : string) :
  matches re_time_hm time = true \/ matches re_time_hms time = true ->
  exists h, sql_time (VStr time) = Some h.
Proof.
  intros [H|H]; unfold sql_time.
  - destruct (matches re_time_hms time); [eauto|]. rewrite H. eauto.
  - rewrite H. eauto.
Qed.

Lemma stamp_other_rows (k : Z) (u : option string) (l : list Booking) :
  Forall (fun r => id r <> k) l -> map (stamp_row (VNum k) u) l = l.
Proof.
  induction 1 as [|r l Hr _ IH]; [reflexivity|].
  simpl. rewrite IH. f_equal.
  unfold stamp_row, is_row, holds. simpl.
  destruct (Z.eqb_spec k (id r)); [congruence|reflexivity].
Qed.

(** C5, as the code has it.  For a complete and well-formed create request
    on a table whose next id is not taken, with no fault pending: the row is
    inserted under the next id, the answer is 201 with [bookingId] the
    decimal numeral of that id padded with zeros on the left to at least five
    characters, a follow-up UPDATE stamps that same text as the row's
    [uniqueId], the text reads back as the id, and it has exactly five
    digits when the id is at most 99999. *)
Theorem bookingId_is_padded_insert_id :
  forall (t : Table) (tr : list Event)
         (name contact day time place package kind : string) (price : Z),
    name <> "" ->
    matches re_contact contact = true ->
    matches re_date day = true ->
    matches re_time_hm time = true \/ matches re_time_hms time = true ->
    place <> "" -> package <> "" -> price <> 0 -> kind <> "" ->
    0 <= auto_increment t ->
    Forall (fun r => id r <> auto_increment t) (rows t) ->
    let b := Req.mkBody (VStr name) (VStr contact) (VStr day) (VStr time)
               (VStr place) (VStr package) (VNum price) (VStr kind) in
    let bookingId := padStart 5 "0" (decimal (auto_increment t)) in
    exists row : Booking,
      post_bookings b (@mkWorld server t [] tr)
      = (Return (mkResponse 201 (BCreated "Booking created" bookingId)),
         @mkWorld server (mkTable (rows t ++ [row]) (auto_increment t + 1)) []
           (tr ++ [EQuery insert_sql (fields b);
                   EQuery stamp_sql [VStr bookingId; VNum (auto_increment t)]]))
      /\ id row = auto_increment t
      /\ uniqueId row = Some bookingId
      /\ customerName row = name
      /\ contactNumber row = contact
      /\ parseInt bookingId = Some (auto_increment t)
      /\ (5 <= String.length bookingId)%nat
      /\ (auto_increment t <= 99999 -> String.length bookingId = 5%nat).
Proof.
  intros t tr name contact day time place package kind price
         Hname Hcontact Hday Htime Hplace Hpackage Hprice Hkind Hnext Hfresh.
  cbv zeta.
  set (next := auto_increment t) in *.
  set (bookingId := padStart 5 "0" (decimal next)).
  destruct (sql_time_accepts time Htime) as [h Hh].
  exists (mkBooking next (Some bookingId) name contact day h place package price kind).
  split; [|repeat split].
  - unfold post_bookings.
    assert (M : missing_fields
                  (Req.mkBody (VStr name) (VStr contact) (VStr day) (VStr time)
                     (VStr place) (VStr package) (VNum price) (VStr kind)) = false).
    { unfold missing_fields. cbn [Req.customerName Req.contactNumber Req.eventDate
        Req.eventTime Req.branch Req.selectedPackage Req.amount Req.celebrationType].
      rewrite (proj2 (FilterFacts.truthy_VStr name) Hname).
      rewrite (proj2 (FilterFacts.truthy_VStr contact)
                 (matches_nonempty re_contact contact ltac:(discriminate) Hcontact)).
      rewrite (proj2 (FilterFacts.truthy_VStr day)
                 (matches_nonempty re_date day ltac:(discriminate) Hday)).
      assert (Ht : time <> "").
      { destruct Htime as [H|H];
          [apply (matches_nonempty re_time_hm)|apply (matches_nonempty re_time_hms)];
          try exact H; discriminate. }
      rewrite (proj2 (FilterFacts.truthy_VStr time) Ht).
      rewrite (proj2 (FilterFacts.truthy_VStr place) Hplace).
      rewrite (proj2 (FilterFacts.truthy_VStr package) Hpackage).
      rewrite (proj2 (FilterFacts.truthy_VStr kind) Hkind).
      cbn [truthy]. apply Z.eqb_neq in Hprice. rewrite Hprice. reflexivity. }
    rewrite M.
    cbn [Req.customerName Req.contactNumber Req.eventDate
        Req.eventTime Req.branch Req.selectedPackage Req.amount Req.celebrationType
        fields].
    unfold try_catch, bind, default_retries.
    rewrite (queryWithRetry_quiet insert_sql _ 2 t
               (mkTable (rows t ++ [mkBooking next None name contact day h place
                                      package price kind]) (next + 1))
               tr (Header 1 (Some next))).
    + cbn [insertId_of toString]. fold bookingId.
      rewrite (queryWithRetry_quiet stamp_sql _ 2 _
                 (mkTable (rows t ++ [mkBooking next (Some bookingId) name contact
                                        day h place package price kind]) (next + 1))
                 _ (Header 1 (Some 0))).
      * unfold json, ret. rewrite <- app_assoc. reflexivity.
      * unfold exec. rewrite parse_stamp. unfold run_stamp.
        cbn [rows auto_increment sql_text].
        rewrite map_app, (stamp_other_rows next _ (rows t) Hfresh).
        unfold affected. cbn [rows].
        rewrite filter_app.
        assert (Z0 : filter (is_row (VNum next)) (rows t) = []).
        { clear - Hfresh. induction Hfresh as [|r l Hr _ IH]; [reflexivity|].
          simpl. rewrite IH. unfold is_row, holds. simpl.
          destruct (Z.eqb_spec next (id r)); [congruence|reflexivity]. }
        rewrite Z0. cbn [map filter app].
        unfold stamp_row, is_row, holds. cbn [sql_int opt_Z_eqb id].
        rewrite Z.eqb_refl. reflexivity.
    + unfold exec. rewrite parse_insert. unfold run_insert.
      cbn [sql_text sql_int]. unfold sql_date. rewrite Hday, Hh. reflexivity.
  - apply NumeralFacts.parseInt_padStart_decimal. exact Hnext.
  - unfold bookingId. rewrite NumeralFacts.length_padStart. lia.
  - intros Hsmall. unfold bookingId. rewrite NumeralFacts.length_padStart.
    pose proof (NumeralFacts.decimal_at_most_five next (conj Hnext Hsmall)). lia.
Qed.

Lemma bookingId_is_padded_insert_id_witness :
  exists row : Booking,
    post_bookings cy_body (quiet sample_table)
    = (Return (mkResponse 201 (BCreated "Booking created" "00003")),
       @mkWorld server (mkTable ([ann; bob] ++ [row]) 4) []
         [EQuery insert_sql (fields cy_body);
          EQuery stamp_sql [VStr "00003"; VNum 3]])
    /\ id row = 3
    /\ uniqueId row = Some "00003"
    /\ customerName row = "Cy"
    /\ contactNumber row = "9876543212"
    /\ parseInt "00003" = Some 3
    /\ (5 <= String.length "00003")%nat
    /\ (3 <= 99999 -> String.length "00003" = 5%nat).
Proof.
  apply (bookingId_is_padded_insert_id sample_table []
           "Cy" "9876543212" "2025-04-01" "10:00" "Main" "Gold" "Party" 500).
  - discriminate.
  - reflexivity.
  - reflexivity.
  - left. reflexivity.
  - discriminate.
  - discriminate.
  - discriminate.
  - discriminate.
  - simpl. lia.
  - repeat constructor; simpl; lia.
Defined.

(** C5 as stated fails once the ids have six digits: the row inserted under
    id 100000 is answered with the bookingId "100000". *)
Lemma bookingId_longer_than_five :
  fst (post_bookings cy_body (quiet (mkTable [] 100000)))
  = Return (mkResponse 201 (BCreated "Booking created" "100000"))
  /\ String.length "100000" = 6%nat.
Proof. split; reflexivity. Qed.

End CreateFacts.

(** ** More on the executor *)

Section ExecutorBounds.

Context {DB : Database}.

(** X1.  A call with a positive budget makes at least one and at most
    [retries] attempts, all with the same statement and parameters, with
    exactly one wait of 1000 ms before each attempt after the first, and
    does nothing else to the outside. *)
Theorem queryWithRetry_attempts_bounded :
  forall (sql : string) (ps : list Val) (n : nat) (w : World),
  exists k : nat,
    (k <= n)%nat
    /\ trace (snd (queryWithRetry sql ps (S n) w)) = trace w ++ retry_trace sql ps k.
Proof.
  intros sql ps n. induction n as [|n IH]; intros w.
  - exists O. split; [lia|].
    destruct (pool_query sql ps w) as [[r|m] w1] eqn:E;
      pose proof (pool_query_trace_eq _ _ _ _ _ E) as T.
    + rewrite (queryWithRetry_success _ _ _ _ _ _ E). exact T.
    + rewrite (queryWithRetry_last _ _ _ _ _ E). exact T.
  - destruct (pool_query sql ps w) as [[r|m] w1] eqn:E;
      pose proof (pool_query_trace_eq _ _ _ _ _ E) as T.
    + exists O. split; [lia|].
      rewrite (queryWithRetry_success _ _ _ _ _ _ E). exact T.
    + destruct (includes "closed state" m) eqn:Hm.
      * rewrite (queryWithRetry_retry _ _ _ _ _ _ E Hm).
        destruct (IH (emit (ESleep 1000) w1)) as [k [Hk Hrest]].
        exists (S k). split; [lia|].
        rewrite Hrest. simpl. rewrite T.
        repeat rewrite <- app_assoc. reflexivity.
      * exists O. split; [lia|].
        rewrite (queryWithRetry_other _ _ _ _ _ _ E Hm). exact T.
Qed.

(** X2.  With a positive budget the call completes exactly as its last
    attempt does: with the result the pool gave, or by throwing the pool's
    own error.  The value after the loop is never what it returns. *)
Theorem queryWithRetry_completes_as_last_attempt :
  forall (sql : string) (ps : list Val) (n : nat) (w : World),
  exists w0 : World,
    queryWithRetry sql ps (S n) w = pool_query sql ps w0.
Proof.
  intros sql ps n. induction n as [|n IH]; intros w.
  - exists w. destruct (pool_query sql ps w) as [[r|m] w1] eqn:E.
    + apply queryWithRetry_success. exact E.
    + apply queryWithRetry_last. exact E.
  - destruct (pool_query sql ps w) as [[r|m] w1] eqn:E.
    + exists w. rewrite E. apply queryWithRetry_success. exact E.
    + destruct (includes "closed state" m) eqn:Hm.
      * rewrite (queryWithRetry_retry _ _ _ _ _ _ E Hm). apply IH.
      * exists w. rewrite E. apply queryWithRetry_other; assumption.
Qed.

(** A scripted closed-state fault costs one retry. *)
Lemma queryWithRetry_skips_fault (sql : string) (ps : list Val) (n : nat)
      (w : World) (m : string) (rest : list (option string)) :
  faults w = Some m :: rest ->
  includes "closed state" m = true ->
  queryWithRetry sql ps (S (S n)) w
  = queryWithRetry sql ps (S n)
      (mkWorld (db w) rest (trace w ++ [EQuery sql ps; ESleep 1000])).
Proof.
  intros F Hm.
  rewrite (queryWithRetry_retry sql ps n w m
             (mkWorld (db w) rest (trace w ++ [EQuery sql ps]))).
  - unfold emit. cbn [db faults trace]. rewrite <- app_assoc. reflexivity.
  - unfold pool_query. rewrite F. reflexivity.
  - exact Hm.
Qed.

Lemma queryWithRetry_fault_is_thrown (sql : string) (ps : list Val)
      (w : World) (m : string) (rest : list (option string)) :
  faults w = Some m :: rest ->
  queryWithRetry sql ps 1 w
  = (Throw m, mkWorld (db w) rest (trace w ++ [EQuery sql ps])).
Proof.
  intros F. apply queryWithRetry_last. unfold pool_query. rewrite F. reflexivity.
Qed.

End ExecutorBounds.

(** ** Edges of the filter handler *)

Module FilterEdges.

Import MySQL.

Section AnyDatabase.

Context {DB : Database}.

(** X3.  A date that is given but is not of the form YYYY-MM-DD is answered
    400 whatever the other parameters are, and the world is as it was. *)
Theorem filter_rejects_malformed_date :
  forall (d : string) (m y br : option string) (w : World),
    d <> "" -> matches re_date d = false ->
    get_bookings_filter (mkFilterQuery (Some d) m y br) w
    = (Return (mkResponse 400 (BError "Invalid date format: Use YYYY-MM-DD")), w).
Proof.
  intros d m y br w Hd Rd.
  unfold get_bookings_filter, filter_build, filter_dated. cbv zeta.
  cbn [date qval]. rewrite (proj2 (FilterFacts.truthy_VStr d) Hd).
  unfold test. cbn [toString]. rewrite Rd. reflexivity.
Qed.


(** X5.  A month without a year, or a year without a month, is neither
    checked nor used: with no date, the request is answered as if neither
    had been given. *)
Theorem filter_ignores_lone_month_or_year :
  forall (q : FilterQuery) (w : World),
    truthy (qval (date q)) = false ->
    truthy (qval (month q)) && truthy (qval (year q)) = false ->
    filter_build q = filter_build (mkFilterQuery None None None (branch_param q))
    /\ get_bookings_filter q w
       = get_bookings_filter (mkFilterQuery None None None (branch_param q)) w.
Proof.
  intros q w Hd Hmy.
  assert (B : filter_build q
              = filter_build (mkFilterQuery None None None (branch_param q))).
  { unfold filter_build, filter_dated. cbv zeta. rewrite Hd, Hmy. reflexivity. }
  split; [exact B|].
  unfold get_bookings_filter. rewrite B. reflexivity.
Qed.

End AnyDatabase.

Lemma exec_month_year (t : Table) (monthNum yearNum : Z) :
  exec t (filter_base ++ " AND MONTH(eventDate) = ? AND YEAR(eventDate) = ?")%string
    [VNum monthNum; VNum yearNum]
  = (Return (Rows (map present (filter (wanted_in monthNum yearNum None) (rows t)))), t).
Proof.
  unfold exec. rewrite FilterFacts.parse_month_year. unfold run_select.
  simpl bind_conds. cbv beta iota zeta.
  rewrite (filter_ext
             (satisfies [(CTrue, VUndef); (CMonth, VNum monthNum); (CYear, VNum yearNum)])
             (wanted_in monthNum yearNum None)); [reflexivity|].
  intros r. unfold wanted_in, satisfies. cbn [forallb holds sql_int].
  rewrite !andb_true_r. reflexivity.
Qed.

Lemma exec_month_year_branch (t : Table) (monthNum yearNum : Z) (b : string) :
  b <> "" -> b <> "All" ->
  exec t ((filter_base ++ " AND MONTH(eventDate) = ? AND YEAR(eventDate) = ?")
          ++ " AND branch = ?")%string
    [VNum monthNum; VNum yearNum; VStr b]
  = (Return (Rows (map present
                     (filter (wanted_in monthNum yearNum (Some b)) (rows t)))), t).
Proof.
  intros Hne Hall.
  unfold exec. rewrite FilterFacts.parse_month_year_branch. unfold run_select.
  simpl bind_conds. cbv beta iota zeta.
  rewrite (filter_ext
             (satisfies [(CTrue, VUndef); (CMonth, VNum monthNum);
                         (CYear, VNum yearNum); (CBranch, VStr b)])
             (wanted_in monthNum yearNum (Some b))); [reflexivity|].
  intros r. unfold wanted_in, satisfies.
  cbn [forallb holds sql_int sql_text opt_text_eqb].
  apply String.eqb_neq in Hne. apply String.eqb_neq in Hall.
  rewrite Hne, Hall. cbn [orb andb].
  rewrite (String.eqb_sym b), !andb_true_r, andb_assoc. reflexivity.
Qed.

Lemma filter_build_month_year (d : option string) (m y : string)
      (br : option string) (monthNum yearNum : Z) :
  truthy (qval d) = false ->
  parseInt m = Some monthNum -> parseInt y = Some yearNum ->
  1 <= monthNum <= 12 -> 1000 <= yearNum ->
  filter_build (mkFilterQuery d (Some m) (Some y) br)
  = match br with
    | Some b =>
        if (b =? "")%string || (b =? "All")%string
        then inr ((filter_base
                   ++ " AND MONTH(eventDate) = ? AND YEAR(eventDate) = ?")%string,
                  [VNum monthNum; VNum yearNum])
        else inr (((filter_base
                    ++ " AND MONTH(eventDate) = ? AND YEAR(eventDate) = ?")
                   ++ " AND branch = ?")%string,
                  [VNum monthNum; VNum yearNum; VStr b])
    | None => inr ((filter_base
                    ++ " AND MONTH(eventDate) = ? AND YEAR(eventDate) = ?")%string,
                   [VNum monthNum; VNum yearNum])
    end.
Proof.
  intros Hd Pm Py Rm Ry.
  assert (Hm : m <> "") by (intros ->; discriminate Pm).
  assert (Hy : y <> "") by (intros ->; discriminate Py).
  unfold filter_build, filter_dated. cbv zeta. cbn [date month year].
  rewrite Hd. cbn [qval].
  rewrite (proj2 (FilterFacts.truthy_VStr m) Hm),
          (proj2 (FilterFacts.truthy_VStr y) Hy).
  cbn [andb toString]. rewrite Pm, Py.
  assert (R : (monthNum <? 1) || (monthNum >? 12) || (yearNum <? 1000) = false).
  { rewrite Z.gtb_ltb.
    destruct (Z.ltb_spec monthNum 1); [lia|].
    destruct (Z.ltb_spec 12 monthNum); [lia|].
    destruct (Z.ltb_spec yearNum 1000); [lia|]. reflexivity. }
  rewrite R. cbv iota.
  destruct br as [b|]; [|reflexivity].
  cbn [branch_param qval toString truthy app].
  destruct (b =? "")%string; destruct (b =? "All")%string; reflexivity.
Qed.

(** X6.  Without a date, a request with a valid month and year is answered
    from exactly the rows whose [eventDate] has that month and that year,
    and that are of the requested branch when one is given that is neither
    empty nor "All": 200 with these rows, 404 when there is none, when no
    connection fault is pending; that answer or a 500 otherwise.  The month
    and year reach the statement as the numbers [parseInt] read. *)
Theorem filter_by_month_and_year :
  forall (w : @World server) (d : option string) (m y : string)
         (br : option string) (monthNum yearNum : Z),
    truthy (qval d) = false ->
    parseInt m = Some monthNum -> parseInt y = Some yearNum ->
    1 <= monthNum <= 12 -> 1000 <= yearNum ->
    let response := fst (get_bookings_filter (mkFilterQuery d (Some m) (Some y) br) w) in
    let expected :=
      filter_answer (map present (filter (wanted_in monthNum yearNum br) (rows (db w)))) in
    (faults w = [] -> response = Return expected)
    /\ (response = Return expected
        \/ exists message,
            response
            = Return (mkResponse 500
                        (BError ("Error fetching filtered bookings: " ++ message)%string))).
Proof.
  intros w d m y br monthNum yearNum Hd Pm Py Rm Ry. cbv zeta.
  pose proof (filter_build_month_year d m y br monthNum yearNum Hd Pm Py Rm Ry) as B.
  destruct br as [b|].
  - destruct (String.eqb_spec b "") as [->|Hne].
    + simpl in B.
      apply (FilterFacts.get_bookings_filter_reads _ _ _ w _ B).
      rewrite exec_month_year. reflexivity.
    + destruct (String.eqb_spec b "All") as [->|Hall].
      * simpl in B.
        apply (FilterFacts.get_bookings_filter_reads _ _ _ w _ B).
        rewrite exec_month_year. reflexivity.
      * simpl in B.
        apply (FilterFacts.get_bookings_filter_reads _ _ _ w _ B).
        apply exec_month_year_branch; assumption.
  - apply (FilterFacts.get_bookings_filter_reads _ _ _ w _ B). apply exec_month_year.
Qed.

Lemma filter_rejects_malformed_date_witness :
  get_bookings_filter
    (mkFilterQuery (Some "10-03-2025") (Some "3") (Some "2025") (Some "East"))
    (quiet sample_table)
  = (Return (mkResponse 400 (BError "Invalid date format: Use YYYY-MM-DD")),
     quiet sample_table).
Proof.
  apply (filter_rejects_malformed_date (DB := server)).
  - discriminate.
  - reflexivity.
Defined.


Lemma filter_ignores_lone_month_or_year_witness :
  get_bookings_filter (mkFilterQuery None (Some "not a month") None (Some "East"))
    (quiet sample_table)
  = get_bookings_filter (mkFilterQuery None None None (Some "East"))
      (quiet sample_table).
Proof.
  apply (proj2 (filter_ignores_lone_month_or_year (DB := server)
                  (mkFilterQuery None (Some "not a month") None (Some "East"))
                  (quiet sample_table) eq_refl eq_refl)).
Defined.

Lemma filter_by_month_and_year_witness :
  fst (get_bookings_filter (mkFilterQuery None (Some "03") (Some "2025") (Some "Main"))
         (quiet sample_table))
  = Return (filter_answer
              (map present (filter (wanted_in 3 2025 (Some "Main")) (rows sample_table)))).
Proof.
  apply (proj1 (filter_by_month_and_year (quiet sample_table) None "03" "2025"
                  (Some "Main") 3 2025 eq_refl eq_refl eq_refl
                  ltac:(lia) ltac:(lia))).
  reflexivity.
Defined.

End FilterEdges.

(** ** Listing and fetching *)

Module RouteFacts.

Import MySQL.

Lemma parse_select_all : parse select_all_sql = Some (Select [] false).
Proof. vm_compute. reflexivity. Qed.

Lemma parse_select_one : parse select_one_sql = Some (Select [CId] false).
Proof. vm_compute. reflexivity. Qed.

Lemma exec_all (t : Table) :
  exec t select_all_sql [] = (Return (Rows (map present (rows t))), t).
Proof.
  unfold exec. rewrite parse_select_all. unfold run_select. simpl bind_conds.
  cbv beta iota zeta.
  assert (All : forall l, filter (satisfies []) l = l).
  { induction l as [|r l IH]; [reflexivity|]. simpl. rewrite IH. reflexivity. }
  rewrite All. reflexivity.
Qed.

Lemma exec_one (t : Table) (key : string) :
  exec t select_one_sql [VStr key]
  = (Return (Rows (map present (filter (is_row (VStr key)) (rows t)))), t).
Proof.
  unfold exec. rewrite parse_select_one. unfold run_select. simpl bind_conds.
  cbv beta iota zeta.
  rewrite (filter_ext (satisfies [(CId, VStr key)]) (is_row (VStr key)));
    [reflexivity|].
  intros r. unfold satisfies, is_row. cbn [forallb]. apply andb_true_r.
Qed.

Lemma includes_closed_state : includes "closed state" closed_state_message = true.
Proof. vm_compute. reflexivity. Qed.

(** X7.  The list route rides out up to two closed-state failures in a row:
    it still answers 200 with every row; from the third on it answers 500
    with the error's message.  The table is left as it was either way. *)
Theorem get_bookings_rides_out_two_failures :
  forall (t : Table) (k : nat) (m : string),
    includes "closed state" m = true ->
    let w := @mkWorld server t (repeat (Some m) k) [] in
    ((k <= 2)%nat ->
     fst (get_bookings w) = Return (mkResponse 200 (BResult (Rows (map present (rows t))))))
    /\ ((3 <= k)%nat ->
        fst (get_bookings w)
        = Return (mkResponse 500 (BError ("Error fetching bookings: " ++ m)%string)))
    /\ db (snd (get_bookings w)) = t.
Proof.
  intros t k m Hm. cbv zeta.
  unfold get_bookings, try_catch, bind, default_retries.
  destruct k as [|[|[|k]]]; cbn [repeat].
  - rewrite (CreateFacts.queryWithRetry_quiet _ _ 2 t t [] _ (exec_all t)).
    split; [intros _; reflexivity|split; [intros H; lia|reflexivity]].
  - erewrite (queryWithRetry_skips_fault _ _ 1); [|reflexivity|exact Hm]. cbn [db trace].
    rewrite (CreateFacts.queryWithRetry_quiet _ _ 1 t t _ _ (exec_all t)).
    split; [intros _; reflexivity|split; [intros H; lia|reflexivity]].
  - erewrite (queryWithRetry_skips_fault _ _ 1); [|reflexivity|exact Hm]. cbn [db trace].
    erewrite (queryWithRetry_skips_fault _ _ 0); [|reflexivity|exact Hm]. cbn [db trace].
    rewrite (CreateFacts.queryWithRetry_quiet _ _ 0 t t _ _ (exec_all t)).
    split; [intros _; reflexivity|split; [intros H; lia|reflexivity]].
  - erewrite (queryWithRetry_skips_fault _ _ 1); [|reflexivity|exact Hm]. cbn [db trace].
    erewrite (queryWithRetry_skips_fault _ _ 0); [|reflexivity|exact Hm]. cbn [db trace].
    erewrite queryWithRetry_fault_is_thrown; [|reflexivity].
    split; [intros H; lia|split; [intros _; reflexivity|reflexivity]].
Qed.

Lemma get_bookings_rides_out_two_failures_witness :
  fst (get_bookings (outage 2 sample_table))
  = Return (mkResponse 200 (BResult (Rows (map present (rows sample_table)))))
  /\ fst (get_bookings (outage 3 sample_table))
     = Return (mkResponse 500
                 (BError ("Error fetching bookings: " ++ closed_state_message)%string)).
Proof.
  split.
  - apply (proj1 (get_bookings_rides_out_two_failures sample_table 2
                    closed_state_message includes_closed_state)).
    lia.
  - apply (proj1 (proj2 (get_bookings_rides_out_two_failures sample_table 3
                           closed_state_message includes_closed_state))).
    lia.
Defined.

Lemma get_notifications_quiet (t : Table) (tr : list Event) (tomorrow : JSDate) :
  fst (get_notifications (Some "true") tomorrow (@mkWorld server t [] tr))
  = Return (notifications_answer tomorrow (bookings_on (isoDate tomorrow) t)).
Proof.
  unfold get_notifications. cbv zeta.
  change ("true" =? "true")%string with true.
  change (negb true) with false. cbv iota.
  unfold try_catch, bind, default_retries.
  rewrite (CreateFacts.queryWithRetry_quiet _ _ 2 t t tr _
             (NotificationFacts.exec_notifications t (isoDate tomorrow))).
  reflexivity.
Qed.

(** X8.  On an empty table the three reading routes differ: the list route
    answers 200 with an empty array, the notifications route answers 200
    with an empty [bookings] array, and the filter route answers 404. *)
Theorem empty_table_answers :
  forall (t : Table) (tr : list Event) (tomorrow : JSDate),
    rows t = [] ->
    fst (get_bookings (@mkWorld server t [] tr))
    = Return (mkResponse 200 (BResult (Rows [])))
    /\ fst (get_notifications (Some "true") tomorrow (@mkWorld server t [] tr))
       = Return (notifications_answer tomorrow [])
    /\ fst (get_bookings_filter (mkFilterQuery None None None None)
              (@mkWorld server t [] tr))
       = Return (mkResponse 404 (BError "No bookings found for the selected filters")).
Proof.
  intros t tr tomorrow E. split; [|split].
  - unfold get_bookings, try_catch, bind, default_retries.
    rewrite (CreateFacts.queryWithRetry_quiet _ _ 2 t t tr _ (exec_all t)).
    rewrite E. reflexivity.
  - rewrite get_notifications_quiet. unfold bookings_on. rewrite E. reflexivity.
  - pose proof (proj1 (FilterFacts.get_bookings_filter_reads
                         (mkFilterQuery None None None None) filter_base []
                         (@mkWorld server t [] tr) (map present (rows t))
                         eq_refl (FilterFacts.exec_plain t)) eq_refl) as H.
    rewrite H, E. reflexivity.
Qed.

Lemma empty_table_answers_witness :
  fst (get_bookings (quiet (mkTable [] 1)))
  = Return (mkResponse 200 (BResult (Rows [])))
  /\ fst (get_notifications (Some "true") march_10 (quiet (mkTable [] 1)))
     = Return (notifications_answer march_10 [])
  /\ fst (get_bookings_filter (mkFilterQuery None None None None)
            (quiet (mkTable [] 1)))
     = Return (mkResponse 404 (BError "No bookings found for the selected filters")).
Proof.
  apply (empty_table_answers (mkTable [] 1) [] march_10). reflexivity.
Defined.

Lemma get_bookings_id_quiet (t : Table) (tr : list Event) (key : string) :
  get_bookings_id key (@mkWorld server t [] tr)
  = (Return match filter (is_row (VStr key)) (rows t) with
            | [] => mkReply 404 (DBody (BError "Booking not found"))
            | r :: _ => mkReply 200 (DBooking (present r))
            end,
     @mkWorld server t [] (tr ++ [EQuery select_one_sql [VStr key]])).
Proof.
  unfold get_bookings_id, try_catch, bind, default_retries.
  rewrite (CreateFacts.queryWithRetry_quiet _ _ 2 t t tr _ (exec_one t key)).
  destruct (filter (is_row (VStr key)) (rows t)); reflexivity.
Qed.

Lemma no_row_matches (key : Val) (l : list Booking) :
  Forall (fun r => sql_int key <> Some (id r)) l -> filter (is_row key) l = [].
Proof.
  induction 1 as [|r l Hr _ IH]; [reflexivity|].
  simpl. rewrite IH. unfold is_row, holds.
  destruct (sql_int key) as [n|]; [|reflexivity].
  simpl. destruct (Z.eqb_spec n (id r)); [congruence|reflexivity].
Qed.

Lemma row_matches (key : Val) (r : Booking) :
  sql_int key = Some (id r) -> is_row key r = true.
Proof. intros H. unfold is_row, holds. rewrite H. simpl. apply Z.eqb_refl. Qed.



End RouteFacts.

(** ** Creating, then fetching; a create cut short *)

Module CreateMore.

Import MySQL.

Lemma only_digits_leading (s : string) :
  only_digits s = true ->
  List.length (leading_digits 10 s) = String.length s.
Proof.
  induction s as [|c s IH]; [reflexivity|]. intros D.
  simpl in D. apply andb_prop in D. destruct D as [Dc Ds].
  destruct (NumeralFacts.digit_value_is_digit c Dc) as [v Hv].
  cbn [leading_digits]. rewrite Hv. simpl. rewrite (IH Ds). reflexivity.
Qed.

(** A padded numeral, bound as a parameter, is the number. *)
Lemma sql_int_padded (width : nat) (n : Z) :
  0 <= n -> sql_int (VStr (padStart width "0" (decimal n))) = Some n.
Proof.
  intros H. destruct (NumeralFacts.decimal_digits n H) as [O [NE V]].
  unfold padStart.
  destruct (NumeralFacts.leading_zeros (width - String.length (decimal n)) (decimal n))
    as [Z1 Z2].
  unfold sql_int, all_digits.
  rewrite only_digits_leading by (rewrite Z1; exact O).
  rewrite Nat.eqb_refl, Z2, V.
  assert (N : (repeat_char "0" (width - String.length (decimal n)) ++ decimal n)%string
              <> "").
  { destruct (decimal n); [congruence|].
    destruct (width - String.length (String a s))%nat; discriminate. }
  apply String.eqb_neq in N. rewrite N. reflexivity.
Qed.

Lemma matches_length (p : list CharClass) :
  forall s, matches p s = true -> String.length s = List.length p.
Proof.
  induction p as [|k p IH]; intros [|c s] H; simpl in *; try discriminate.
  - reflexivity.
  - apply andb_prop in H. destruct H as [_ H]. rewrite (IH s H). reflexivity.
Qed.

(** Whichever accepted form a time came in, it is presented as its first
    five characters. *)
Lemma time_format_stored (time h : string) :
  matches re_time_hm time = true \/ matches re_time_hms time = true ->
  sql_time (VStr time) = Some h ->
  time_format h = slice0 5 time.
Proof.
  intros Ht Hh. unfold sql_time in Hh. unfold time_format, slice0.
  destruct (matches re_time_hms time) eqn:E8.
  - inversion Hh; subst. reflexivity.
  - destruct Ht as [E5|]; [|congruence]. rewrite E5 in Hh. inversion Hh; subst.
    pose proof (matches_length _ _ E5) as L.
    destruct time as [|c1 [|c2 [|c3 [|c4 [|c5 [|c6 rest]]]]]];
      simpl in L; try discriminate L.
    reflexivity.
Qed.

(** The create handler on a world whose next two pool calls go through. *)
Lemma post_bookings_inserts (t : Table) (tr : list Event)
      (script : list (option string))
      (name contact day time place package kind h : string) (price : Z) :
  name <> "" ->
  matches re_contact contact = true ->
  matches re_date day = true ->
  sql_time (VStr time) = Some h ->
  time <> "" ->
  place <> "" -> package <> "" -> price <> 0 -> kind <> "" ->
  let b := Req.mkBody (VStr name) (VStr contact) (VStr day) (VStr time)
             (VStr place) (VStr package) (VNum price) (VStr kind) in
  missing_fields b = false
  /\ pool_query insert_sql (fields b) (@mkWorld server t (None :: script) tr)
     = (Return (Header 1 (Some (auto_increment t))),
        @mkWorld server
          (mkTable (rows t ++ [mkBooking (auto_increment t) None name contact day h
                                 place package price kind])
             (auto_increment t + 1))
          script (tr ++ [EQuery insert_sql (fields b)])).
Proof.
  intros Hname Hcontact Hday Hh Ht Hplace Hpackage Hprice Hkind. cbv zeta. split.
  - unfold missing_fields.
    cbn [Req.customerName Req.contactNumber Req.eventDate
         Req.eventTime Req.branch Req.selectedPackage Req.amount Req.celebrationType].
    rewrite (proj2 (FilterFacts.truthy_VStr name) Hname).
    rewrite (proj2 (FilterFacts.truthy_VStr contact)
               (CreateFacts.matches_nonempty re_contact contact
                  ltac:(discriminate) Hcontact)).
    rewrite (proj2 (FilterFacts.truthy_VStr day)
               (CreateFacts.matches_nonempty re_date day ltac:(discriminate) Hday)).
    rewrite (proj2 (FilterFacts.truthy_VStr time) Ht).
    rewrite (proj2 (FilterFacts.truthy_VStr place) Hplace).
    rewrite (proj2 (FilterFacts.truthy_VStr package) Hpackage).
    rewrite (proj2 (FilterFacts.truthy_VStr kind) Hkind).
    cbn [truthy]. apply Z.eqb_neq in Hprice. rewrite Hprice. reflexivity.
  - unfold pool_query, fields. cbn [faults db trace tl
         Req.customerName Req.contactNumber Req.eventDate
         Req.eventTime Req.branch Req.selectedPackage Req.amount Req.celebrationType].
    simpl db_exec. unfold exec. rewrite CreateFacts.parse_insert. unfold run_insert.
    cbn [sql_text sql_int]. unfold sql_date. rewrite Hday, Hh. reflexivity.
Qed.

Lemma stamp_new_row (t : Table) (next : Z) (u : string) (row : Booking) :
  Forall (fun r => id r <> next) (rows t) ->
  id row = next ->
  exec (mkTable (rows t ++ [row]) (next + 1)) stamp_sql [VStr u; VNum next]
  = (Return (Header 1 (Some 0)),
     mkTable (rows t ++ [stamp_row (VNum next) (Some u) row]) (next + 1)).
Proof.
  intros Hfresh Hid.
  unfold exec. rewrite CreateFacts.parse_stamp. unfold run_stamp.
  cbn [rows auto_increment sql_text].
  rewrite map_app, (CreateFacts.stamp_other_rows next _ (rows t) Hfresh).
  unfold affected. cbn [rows]. rewrite filter_app.
  rewrite (RouteFacts.no_row_matches (VNum next) (rows t)).
  - cbn [map filter app].
    rewrite (RouteFacts.row_matches (VNum next) row); [reflexivity|].
    simpl. congruence.
  - clear - Hfresh. induction Hfresh; constructor; [simpl; congruence|assumption].
Qed.

(** X10.  Round trip: after a complete and well-formed create request on a
    table whose next id is not taken, with no fault pending, fetching by the
    returned [bookingId] answers 200 with the new row: the id and the
    stamped [uniqueId], the submitted name, contact, branch, package, amount
    and type unchanged, the date as [DD-MM-YYYY] and the time as its first
    five characters, [HH:MM]. *)
Theorem create_then_fetch :
  forall (t : Table) (tr : list Event)
         (name contact day time place package kind : string) (price : Z),
    name <> "" ->
    matches re_contact contact = true ->
    matches re_date day = true ->
    matches re_time_hm time = true \/ matches re_time_hms time = true ->
    place <> "" -> package <> "" -> price <> 0 -> kind <> "" ->
    0 <= auto_increment t ->
    Forall (fun r => id r <> auto_increment t) (rows t) ->
    let b := Req.mkBody (VStr name) (VStr contact) (VStr day) (VStr time)
               (VStr place) (VStr package) (VNum price) (VStr kind) in
    let bookingId := padStart 5 "0" (decimal (auto_increment t)) in
    fst (get_bookings_id bookingId (snd (post_bookings b (@mkWorld server t [] tr))))
    = Return (mkReply 200
                (DBooking (mkBooking (auto_increment t) (Some bookingId) name contact
                             (date_format day) (slice0 5 time) place package price
                             kind))).
Proof.
  intros t tr name contact day time place package kind price
         Hname Hcontact Hday Htime Hplace Hpackage Hprice Hkind Hnext Hfresh.
  cbv zeta.
  destruct (CreateFacts.sql_time_accepts time Htime) as [h Hh].
  assert (Ht : time <> "").
  { destruct Htime as [H|H];
      [apply (CreateFacts.matches_nonempty re_time_hm)
      |apply (CreateFacts.matches_nonempty re_time_hms)];
      try exact H; discriminate. }
  set (next := auto_increment t) in *.
  set (bookingId := padStart 5 "0" (decimal next)).
  set (row := mkBooking next None name contact day h place package price kind).
  assert (P : snd (post_bookings
                     (Req.mkBody (VStr name) (VStr contact) (VStr day) (VStr time)
                        (VStr place) (VStr package) (VNum price) (VStr kind))
                     (@mkWorld server t [] tr))
              = @mkWorld server
                  (mkTable (rows t ++ [stamp_row (VNum next) (Some bookingId) row])
                     (next + 1))
                  []
                  ((tr ++ [EQuery insert_sql
                             [VStr name; VStr contact; VStr day; VStr time;
                              VStr place; VStr package; VNum price; VStr kind]])
                   ++ [EQuery stamp_sql [VStr bookingId; VNum next]])).
  { unfold post_bookings.
    destruct (post_bookings_inserts t tr [] name contact day time place package
                kind h price Hname Hcontact Hday Hh Ht Hplace Hpackage Hprice Hkind)
      as [M _].
    cbv zeta in M. rewrite M.
    cbn [Req.customerName Req.contactNumber Req.eventDate
         Req.eventTime Req.branch Req.selectedPackage Req.amount Req.celebrationType].
    unfold try_catch, bind, default_retries.
    rewrite (CreateFacts.queryWithRetry_quiet insert_sql _ 2 t
               (mkTable (rows t ++ [row]) (next + 1)) tr (Header 1 (Some next))).
    - cbn [insertId_of toString]. fold bookingId.
      rewrite (CreateFacts.queryWithRetry_quiet stamp_sql _ 2 _ _ _ _
                 (stamp_new_row t next bookingId row Hfresh eq_refl)).
      reflexivity.
    - unfold exec. rewrite CreateFacts.parse_insert. unfold run_insert.
      cbn [sql_text sql_int]. unfold sql_date. rewrite Hday, Hh. reflexivity. }
  rewrite P, RouteFacts.get_bookings_id_quiet. cbn [fst rows].
  rewrite filter_app.
  pose proof (sql_int_padded 5 next Hnext) as K. fold bookingId in K.
  rewrite (RouteFacts.no_row_matches (VStr bookingId) (rows t)).
  - cbn [filter app].
    assert (S : stamp_row (VNum next) (Some bookingId) row
                = mkBooking next (Some bookingId) name contact day h place package
                    price kind).
    { unfold stamp_row. rewrite (RouteFacts.row_matches (VNum next) row eq_refl).
      reflexivity. }
    rewrite S.
    rewrite (RouteFacts.row_matches (VStr bookingId)); [|exact K].
    unfold present. cbn [id uniqueId customerName contactNumber eventDate eventTime
                           branch selectedPackage amount celebrationType].
    rewrite (time_format_stored time h Htime Hh). reflexivity.
  - rewrite K. clear - Hfresh.
    induction Hfresh; constructor; [congruence|assumption].
Qed.

Lemma create_then_fetch_witness :
  fst (get_bookings_id "00003"
         (snd (post_bookings cy_body (quiet sample_table))))
  = Return (mkReply 200
              (DBooking (mkBooking 3 (Some "00003") "Cy" "9876543212" "01-04-2025"
                           "10:00" "Main" "Gold" 500 "Party"))).
Proof.
  apply (create_then_fetch sample_table []
           "Cy" "9876543212" "2025-04-01" "10:00" "Main" "Gold" "Party" 500).
  - discriminate.
  - reflexivity.
  - reflexivity.
  - left. reflexivity.
  - discriminate.
  - discriminate.
  - discriminate.
  - discriminate.
  - simpl. lia.
  - repeat constructor; simpl; lia.
Defined.

(** X11.  The create is not atomic: when the INSERT goes through and the
    follow-up UPDATE then fails with an error that is not retried, the
    answer is 500 with that error's message, while the new row stays in the
    table with no [uniqueId]. *)
Theorem create_cut_short_leaves_unstamped_row :
  forall (t : Table) (tr : list Event) (script : list (option string)) (m : string)
         (name contact day time place package kind h : string) (price : Z),
    name <> "" ->
    matches re_contact contact = true ->
    matches re_date day = true ->
    sql_time (VStr time) = Some h ->
    time <> "" ->
    place <> "" -> package <> "" -> price <> 0 -> kind <> "" ->
    includes "closed state" m = false ->
    let b := Req.mkBody (VStr name) (VStr contact) (VStr day) (VStr time)
               (VStr place) (VStr package) (VNum price) (VStr kind) in
    let bookingId := padStart 5 "0" (decimal (auto_increment t)) in
    post_bookings b (@mkWorld server t (None :: Some m :: script) tr)
    = (Return (mkResponse 500 (BError ("Error creating booking: " ++ m)%string)),
       @mkWorld server
         (mkTable (rows t ++ [mkBooking (auto_increment t) None name contact day h
                                place package price kind])
            (auto_increment t + 1))
         script
         (tr ++ [EQuery insert_sql (fields b);
                 EQuery stamp_sql [VStr bookingId; VNum (auto_increment t)]])).
Proof.
  intros t tr script m name contact day time place package kind h price
         Hname Hcontact Hday Hh Ht Hplace Hpackage Hprice Hkind Hm.
  cbv zeta.
  destruct (post_bookings_inserts t tr (Some m :: script) name contact day time place
              package kind h price Hname Hcontact Hday Hh Ht Hplace Hpackage Hprice
              Hkind) as [M P].
  cbv zeta in M, P. unfold post_bookings. rewrite M.
  change [Req.customerName
            (Req.mkBody (VStr name) (VStr contact) (VStr day) (VStr time)
               (VStr place) (VStr package) (VNum price) (VStr kind));
          Req.contactNumber _; Req.eventDate _; Req.eventTime _; Req.branch _;
          Req.selectedPackage _; Req.amount _; Req.celebrationType _]
    with (fields (Req.mkBody (VStr name) (VStr contact) (VStr day) (VStr time)
                    (VStr place) (VStr package) (VNum price) (VStr kind))).
  unfold try_catch, bind, default_retries.
  rewrite (queryWithRetry_success _ _ 2 _ _ _ P).
  cbn [insertId_of toString].
  erewrite queryWithRetry_other;
    [|unfold pool_query; cbn [faults db trace]; reflexivity|exact Hm].
  unfold json, ret. rewrite <- app_assoc. reflexivity.
Qed.

Lemma create_cut_short_leaves_unstamped_row_witness :
  post_bookings cy_body
    (@mkWorld server sample_table [None; Some "Lock wait timeout exceeded"] [])
  = (Return (mkResponse 500
               (BError "Error creating booking: Lock wait timeout exceeded")),
     @mkWorld server
       (mkTable ([ann; bob]
                 ++ [mkBooking 3 None "Cy" "9876543212" "2025-04-01" "10:00:00"
                       "Main" "Gold" 500 "Party"]) 4)
       []
       [EQuery insert_sql (fields cy_body); EQuery stamp_sql [VStr "00003"; VNum 3]]).
Proof.
  apply (create_cut_short_leaves_unstamped_row sample_table [] []
           "Lock wait timeout exceeded"
           "Cy" "9876543212" "2025-04-01" "10:00" "Main" "Gold" "Party" "10:00:00" 500);
    try discriminate; reflexivity.
Defined.

End CreateMore.

(** ** The validation of the update handler *)

Module PatternFacts.

Lemma matches_app (p1 p2 : list CharClass) :
  forall s1 s2,
    matches p1 s1 = true -> matches p2 s2 = true ->
    matches (p1 ++ p2) (s1 ++ s2)%string = true.
Proof.
  induction p1 as [|k p1 IH]; intros [|c s1] s2 H1 H2; simpl in *; try discriminate.
  - exact H2.
  - apply andb_prop in H1. destruct H1 as [Hc H1].
    rewrite Hc. simpl. apply IH; assumption.
Qed.

(** A text matching a pattern that continues matches its head when cut to
    the head's length. *)
Lemma matches_prefix (p1 p2 : list CharClass) :
  forall s,
    matches (p1 ++ p2) s = true ->
    matches p1 (String.substring 0 (List.length p1) s) = true.
Proof.
  induction p1 as [|k p1 IH]; intros s H.
  - destruct s; reflexivity.
  - destruct s as [|c s]; simpl in H; [discriminate|].
    apply andb_prop in H. destruct H as [Hc H].
    simpl. rewrite Hc. simpl. apply IH. exact H.
Qed.

Lemma matches_whole (p : list CharClass) :
  forall s, matches p s = true -> String.substring 0 (List.length p) s = s.
Proof.
  induction p as [|k p IH]; intros [|c s] H; simpl in *; try discriminate.
  - reflexivity.
  - apply andb_prop in H. destruct H as [_ H]. rewrite (IH s H). reflexivity.
Qed.




(** The numeral of an integer has no colon where a time has one. *)
Lemma only_digits_not_time (p : list CharClass) (s : string) :
  only_digits s = true -> matches (Digit :: Digit :: Lit ":" :: p) s = false.
Proof.
  intros O. destruct s as [|c1 [|c2 [|c3 s]]]; try reflexivity;
    try (cbn [matches]; rewrite !andb_false_r; reflexivity).
  cbn [only_digits] in O.
  apply andb_prop in O. destruct O as [_ O].
  apply andb_prop in O. destruct O as [_ O].
  apply andb_prop in O. destruct O as [D3 _].
  cbn [matches class_match].
  assert (N : Ascii.eqb ":" c3 = false).
  { apply Ascii.eqb_neq. intros E. subst c3. discriminate D3. }
  rewrite N. simpl. rewrite !andb_false_r. reflexivity.
Qed.

Lemma decimal_not_time (p : list CharClass) (n : Z) :
  matches (Digit :: Digit :: Lit ":" :: p) (decimal n) = false.
Proof.
  destruct (Z.lt_ge_cases n 0) as [Neg|Pos].
  - destruct n as [|q|q]; try lia. reflexivity.
  - apply only_digits_not_time.
    apply (NumeralFacts.decimal_digits n Pos).
Qed.

(** Only a string can pass one of the two time patterns. *)
Lemma time_is_string (p : list CharClass) (v : Val) :
  test (Digit :: Digit :: Lit ":" :: p) v = true -> exists s, v = VStr s.
Proof.
  unfold test. destruct v as [| |[|]|n|s]; cbn [toString]; intros H;
    try discriminate H.
  - rewrite decimal_not_time in H. discriminate H.
  - eauto.
Qed.

End PatternFacts.

(** ** The update handler *)

Module UpdateFacts.

Section AnyDatabase.

Context {DB : Database}.

(** The time block, by the form of the time. *)
Lemma normalize_time_cases (v : Val) (w : World) :
  (exists s, v = VStr s /\ matches re_time_hms s = true
             /\ normalize_time v w = (Return (inr (VStr (slice0 5 s))), w))
  \/ (exists s, v = VStr s /\ matches re_time_hms s = false
                /\ matches re_time_hm s = true
                /\ normalize_time v w = (Return (inr (VStr s)), w))
  \/ (test re_time_hms v = false /\ test re_time_hm v = false
      /\ normalize_time v w
         = (Return (inl (mkResponse 400
                           (BError "Invalid time format: Use HH:MM or HH:MM:SS"))), w)).
Proof.
  unfold normalize_time.
  destruct (test re_time_hms v) eqn:E8.
  - left. destruct (PatternFacts.time_is_string _ v E8) as [s ->].
    exists s. repeat split. exact E8.
  - destruct (test re_time_hm v) eqn:E5.
    + right. left. destruct (PatternFacts.time_is_string _ v E5) as [s ->].
      exists s. repeat split; assumption.
    + right. right. repeat split.
Qed.

(** X13.  The update handler always answers: no request body makes it throw,
    the [slice] of the time being reached with strings only, and every
    failure of the database being turned into a 500. *)
Theorem put_bookings_id_always_answers :
  forall (id : string) (b : Req.Body) (w : World),
  exists response : Response,
    fst (put_bookings_id id b w) = Return response.
Proof.
  intros id b w. unfold put_bookings_id.
  destruct (missing_fields b); [eexists; reflexivity|].
  destruct (negb (test re_contact (Req.contactNumber b))); [eexists; reflexivity|].
  destruct (negb (test re_date (Req.eventDate b))); [eexists; reflexivity|].
  unfold bind at 1.
  destruct (normalize_time_cases (Req.eventTime b) w)
    as [[s [_ [_ N]]]|[[s [_ [_ [_ N]]]]|[_ [_ N]]]]; rewrite N.
  - unfold try_catch, bind.
    destruct (queryWithRetry update_sql _ default_retries w) as [[r|m] w'].
    + destruct (affectedRows_is_zero r); eexists; reflexivity.
    + eexists; reflexivity.
  - unfold try_catch, bind.
    destruct (queryWithRetry update_sql _ default_retries w) as [[r|m] w'].
    + destruct (affectedRows_is_zero r); eexists; reflexivity.
    + eexists; reflexivity.
  - eexists; reflexivity.
Qed.

(** X14.  A 400 answer never comes with a database access: whenever the
    create, the update or the filter handler answers 400, the world is as it
    was before the request. *)
Theorem bad_request_leaves_world_untouched :
  forall (id : string) (b : Req.Body) (q : FilterQuery) (w : World),
    (forall response,
        fst (post_bookings b w) = Return response -> status response = 400 ->
        snd (post_bookings b w) = w)
    /\ (forall response,
           fst (put_bookings_id id b w) = Return response -> status response = 400 ->
           snd (put_bookings_id id b w) = w)
    /\ (forall response,
           fst (get_bookings_filter q w) = Return response -> status response = 400 ->
           snd (get_bookings_filter q w) = w).
Proof.
  intros id b q w. split; [|split]; intros response.
  - unfold post_bookings.
    destruct (missing_fields b); [reflexivity|].
    unfold try_catch, bind.
    destruct (queryWithRetry insert_sql _ default_retries w) as [[r|m] w1].
    + destruct (queryWithRetry stamp_sql _ default_retries w1) as [[r2|m2] w2];
        simpl; intros E S; inversion E; subst; discriminate S.
    + simpl. intros E S; inversion E; subst; discriminate S.
  - unfold put_bookings_id.
    destruct (missing_fields b); [reflexivity|].
    destruct (negb (test re_contact (Req.contactNumber b))); [reflexivity|].
    destruct (negb (test re_date (Req.eventDate b))); [reflexivity|].
    unfold bind, try_catch.
    destruct (normalize_time_cases (Req.eventTime b) w)
      as [[s [_ [_ N]]]|[[s [_ [_ [_ N]]]]|[_ [_ N]]]]; rewrite N;
      try reflexivity;
      (destruct (queryWithRetry update_sql _ default_retries w) as [[r|m] w'];
       [destruct (affectedRows_is_zero r)|]);
      simpl; intros E S; inversion E; subst; discriminate S.
  - unfold get_bookings_filter.
    destruct (filter_build q) as [r0|[sql ps]]; [reflexivity|].
    unfold try_catch, bind.
    destruct (queryWithRetry sql ps default_retries w) as [[r|m] w'].
    + destruct (length_is_zero r); simpl; intros E S; inversion E; subst; discriminate S.
    + simpl. intros E S; inversion E; subst; discriminate S.
Qed.

(** X15.  When a request passes the four checks of the update handler, the
    UPDATE is handed to the pool with the eight fields in column order and
    the id last, and the time it carries is the first five characters of the
    submitted one, of the form HH:MM, whichever of the two accepted forms
    was submitted. *)
Theorem put_bookings_id_sends_hhmm :
  forall (id : string) (b : Req.Body) (w : World),
    missing_fields b = false ->
    test re_contact (Req.contactNumber b) = true ->
    test re_date (Req.eventDate b) = true ->
    test re_time_hms (Req.eventTime b) = true \/ test re_time_hm (Req.eventTime b) = true ->
    let hhmm := slice0 5 (toString (Req.eventTime b)) in
    matches re_time_hm hhmm = true
    /\ exists rest,
        trace (snd (put_bookings_id id b w))
        = trace w
          ++ EQuery update_sql
               [Req.customerName b; Req.contactNumber b; Req.eventDate b; VStr hhmm;
                Req.branch b; Req.selectedPackage b; Req.amount b;
                Req.celebrationType b; VStr id]
             :: rest.
Proof.
  intros id b w M C D T. cbv zeta.
  unfold put_bookings_id. rewrite M, C, D. cbn [negb]. cbv iota.
  unfold bind at 1.
  destruct (normalize_time_cases (Req.eventTime b) w)
    as [[s [Ev [E8 N]]]|[[s [Ev [_ [E5 N]]]]|[F8 [F5 _]]]].
  - rewrite N, Ev. cbn [toString]. split.
    + apply (PatternFacts.matches_prefix re_time_hm [Lit ":"; Digit; Digit] s E8).
    + unfold try_catch, bind, default_retries.
      destruct (queryWithRetry_first_attempt update_sql
                  [Req.customerName b; Req.contactNumber b; Req.eventDate b;
                   VStr (slice0 5 s); Req.branch b; Req.selectedPackage b;
                   Req.amount b; Req.celebrationType b; VStr id] 2 w) as [rest R].
      destruct (queryWithRetry update_sql _ 3 w) as [[r|m] w'].
      * destruct (affectedRows_is_zero r); exists rest; exact R.
      * exists rest; exact R.
  - rewrite N, Ev. cbn [toString].
    assert (S5 : slice0 5 s = s) by apply (PatternFacts.matches_whole re_time_hm s E5).
    rewrite S5. split; [exact E5|].
    unfold try_catch, bind, default_retries.
    destruct (queryWithRetry_first_attempt update_sql
                [Req.customerName b; Req.contactNumber b; Req.eventDate b;
                 VStr s; Req.branch b; Req.selectedPackage b;
                 Req.amount b; Req.celebrationType b; VStr id] 2 w) as [rest R].
    destruct (queryWithRetry update_sql _ 3 w) as [[r|m] w'].
    + destruct (affectedRows_is_zero r); exists rest; exact R.
    + exists rest; exact R.
  - destruct T; congruence.
Qed.

End AnyDatabase.

Lemma bad_request_leaves_world_untouched_witness :
  snd (post_bookings zero_amount_body (outage 1 sample_table)) = outage 1 sample_table
  /\ snd (put_bookings_id "1" short_contact_body (outage 1 sample_table))
     = outage 1 sample_table
  /\ snd (get_bookings_filter (mkFilterQuery (Some "tomorrow") None None None)
            (outage 1 sample_table))
     = outage 1 sample_table.
Proof.
  split; [|split].
  - apply (proj1 (bad_request_leaves_world_untouched (DB := MySQL.server)
                    "1" zero_amount_body (mkFilterQuery None None None None)
                    (outage 1 sample_table))
             (mkResponse 400 (BError "All fields required"))); reflexivity.
  - apply (proj1 (proj2 (bad_request_leaves_world_untouched (DB := MySQL.server)
                           "1" short_contact_body (mkFilterQuery None None None None)
                           (outage 1 sample_table)))
             (mkResponse 400 (BError "Invalid contact number: Must be 10 digits")));
      reflexivity.
  - apply (proj2 (proj2 (bad_request_leaves_world_untouched (DB := MySQL.server)
                           "1" cy_body (mkFilterQuery (Some "tomorrow") None None None)
                           (outage 1 sample_table)))
             (mkResponse 400 (BError "Invalid date format: Use YYYY-MM-DD")));
      reflexivity.
Defined.

Lemma put_bookings_id_sends_hhmm_witness :
  matches re_time_hm "19:45" = true
  /\ exists rest,
      trace (snd (put_bookings_id "1" evening_body (quiet sample_table)))
      = [] ++ EQuery update_sql
                [VStr "Ann B"; VStr "9876500000"; VStr "2025-05-02"; VStr "19:45";
                 VStr "East"; VStr "Platinum"; VNum 750; VStr "Anniversary"; VStr "1"]
              :: rest.
Proof.
  apply (put_bookings_id_sends_hhmm (DB := MySQL.server) "1" evening_body
           (quiet sample_table)).
  - reflexivity.
  - reflexivity.
  - reflexivity.
  - left. reflexivity.
Defined.

(** *** Updating on the MySQL model *)

Import MySQL.

Lemma parse_update : parse update_sql = Some Update.
Proof. vm_compute. reflexivity. Qed.

Lemma hhmm_is_stored_with_seconds (hhmm : string) :
  matches re_time_hm hhmm = true -> sql_time (VStr hhmm) = Some (hhmm ++ ":00")%string.
Proof.
  intros H. unfold sql_time.
  assert (N : matches re_time_hms hhmm = false).
  { destruct (matches re_time_hms hhmm) eqn:E; [|reflexivity].
    pose proof (CreateMore.matches_length _ _ H) as L5.
    pose proof (CreateMore.matches_length _ _ E) as L8.
    rewrite L5 in L8. discriminate L8. }
  rewrite N, H. reflexivity.
Qed.

Lemma normalize_time_string (time : string) (w : @World server) :
  matches re_time_hm time = true \/ matches re_time_hms time = true ->
  normalize_time (VStr time) w = (Return (inr (VStr (slice0 5 time))), w)
  /\ matches re_time_hm (slice0 5 time) = true.
Proof.
  intros Ht. unfold normalize_time, test. cbn [toString].
  destruct (matches re_time_hms time) eqn:E8.
  - split; [reflexivity|].
    apply (PatternFacts.matches_prefix re_time_hm [Lit ":"; Digit; Digit] time E8).
  - destruct Ht as [E5|]; [|congruence]. rewrite E5. cbn [negb].
    assert (S5 : slice0 5 time = time)
      by apply (PatternFacts.matches_whole re_time_hm time E5).
    rewrite S5. split; [reflexivity|exact E5].
Qed.

Lemma exec_update (t : Table) (key name contact day hhmm place package kind : string)
      (price : Z) :
  matches re_date day = true ->
  matches re_time_hm hhmm = true ->
  exec t update_sql
    [VStr name; VStr contact; VStr day; VStr hhmm; VStr place; VStr package;
     VNum price; VStr kind; VStr key]
  = (Return (Header (affected (VStr key) t) (Some 0)),
     mkTable
       (map (fun r => if is_row (VStr key) r
                      then updated r name contact day hhmm place package kind price
                      else r) (rows t))
       (auto_increment t)).
Proof.
  intros Hday Hh. unfold exec. rewrite parse_update. unfold run_update.
  cbn [sql_text sql_int]. unfold sql_date.
  rewrite Hday, (hhmm_is_stored_with_seconds hhmm Hh). reflexivity.
Qed.

Lemma unchanged_rows (key : Val) (f : Booking -> Booking) (l : list Booking) :
  Forall (fun r => sql_int key <> Some (id r)) l ->
  map (fun r => if is_row key r then f r else r) l = l.
Proof.
  induction 1 as [|r l Hr _ IH]; [reflexivity|].
  simpl. rewrite IH. f_equal.
  unfold is_row, holds. destruct (sql_int key) as [n|]; [|reflexivity].
  simpl. destruct (Z.eqb_spec n (id r)); [congruence|reflexivity].
Qed.

Lemma others_differ (key : Val) (n : Z) (l : list Booking) :
  sql_int key = Some n ->
  Forall (fun x => id x <> n) l ->
  Forall (fun r => sql_int key <> Some (id r)) l.
Proof.
  intros K F. rewrite K. induction F; constructor; [congruence|assumption].
Qed.

(** X16.  A complete and well-formed update on the MySQL model, with no
    fault pending: when no row has the id the answer is 404 and the table is
    as it was; when one row has it the answer is 200 and that row carries
    the submitted fields, its time as HH:MM:00, while its [id] and
    [uniqueId] and every other row are untouched. *)
Theorem put_bookings_id_updates_or_404 :
  forall (t : Table) (tr : list Event)
         (key name contact day time place package kind : string) (price : Z),
    name <> "" ->
    matches re_contact contact = true ->
    matches re_date day = true ->
    matches re_time_hm time = true \/ matches re_time_hms time = true ->
    place <> "" -> package <> "" -> price <> 0 -> kind <> "" ->
    let b := Req.mkBody (VStr name) (VStr contact) (VStr day) (VStr time)
               (VStr place) (VStr package) (VNum price) (VStr kind) in
    let hhmm := slice0 5 time in
    let sent :=
      EQuery update_sql
        [VStr name; VStr contact; VStr day; VStr hhmm; VStr place; VStr package;
         VNum price; VStr kind; VStr key] in
    (Forall (fun r => sql_int (VStr key) <> Some (id r)) (rows t) ->
     put_bookings_id key b (@mkWorld server t [] tr)
     = (Return (mkResponse 404 (BError "Booking not found")),
        @mkWorld server t [] (tr ++ [sent])))
    /\ (forall before r after,
          rows t = before ++ r :: after ->
          sql_int (VStr key) = Some (id r) ->
          Forall (fun x => id x <> id r) before ->
          Forall (fun x => id x <> id r) after ->
          put_bookings_id key b (@mkWorld server t [] tr)
          = (Return (mkResponse 200 (BMessage "Booking updated")),
             @mkWorld server
               (mkTable (before
                         ++ updated r name contact day hhmm place package kind price
                         :: after)
                  (auto_increment t))
               [] (tr ++ [sent]))).
Proof.
  intros t tr key name contact day time place package kind price
         Hname Hcontact Hday Htime Hplace Hpackage Hprice Hkind.
  cbv zeta.
  destruct (CreateFacts.sql_time_accepts time Htime) as [h Hh].
  assert (Ht : time <> "").
  { destruct Htime as [H|H];
      [apply (CreateFacts.matches_nonempty re_time_hm)
      |apply (CreateFacts.matches_nonempty re_time_hms)];
      try exact H; discriminate. }
  destruct (CreateMore.post_bookings_inserts t tr [] name contact day time place
              package kind h price Hname Hcontact Hday Hh Ht Hplace Hpackage Hprice
              Hkind) as [M _].
  cbv zeta in M.
  assert (Start : forall w : @World server,
             put_bookings_id key
               (Req.mkBody (VStr name) (VStr contact) (VStr day) (VStr time)
                  (VStr place) (VStr package) (VNum price) (VStr kind)) w
             = try_catch
                 (bind (queryWithRetry update_sql
                          [VStr name; VStr contact; VStr day; VStr (slice0 5 time);
                           VStr place; VStr package; VNum price; VStr kind; VStr key]
                          default_retries)
                    (fun result =>
                       if affectedRows_is_zero result
                       then json 404 (BError "Booking not found")
                       else json 200 (BMessage "Booking updated")))
                 (fun message =>
                    json 500 (BError ("Error updating booking: " ++ message)%string))
                 w).
  { intros w. unfold put_bookings_id. rewrite M.
    cbn [Req.customerName Req.contactNumber Req.eventDate
         Req.eventTime Req.branch Req.selectedPackage Req.amount Req.celebrationType].
    unfold test at 1 2. cbn [toString]. rewrite Hcontact, Hday. cbn [negb]. cbv iota.
    unfold bind at 1.
    rewrite (proj1 (normalize_time_string time w Htime)). reflexivity. }
  pose proof (proj2 (normalize_time_string time (@mkWorld server t [] tr) Htime)) as H5.
  split.
  - intros Hnone. rewrite Start. unfold try_catch, bind, default_retries.
    rewrite (CreateFacts.queryWithRetry_quiet _ _ 2 t _ tr _
               (exec_update t key name contact day (slice0 5 time) place package kind
                  price Hday H5)).
    unfold affected. rewrite (RouteFacts.no_row_matches _ _ Hnone).
    rewrite (unchanged_rows _ _ _ Hnone).
    destruct t; reflexivity.
  - intros before r after E K Fb Fa. rewrite Start.
    unfold try_catch, bind, default_retries.
    rewrite (CreateFacts.queryWithRetry_quiet _ _ 2 t _ tr _
               (exec_update t key name contact day (slice0 5 time) place package kind
                  price Hday H5)).
    unfold affected. rewrite E, filter_app, map_app.
    rewrite (RouteFacts.no_row_matches _ _ (others_differ _ _ _ K Fb)).
    rewrite (unchanged_rows _ _ _ (others_differ _ _ _ K Fb)).
    cbn [filter map app].
    rewrite (RouteFacts.row_matches _ _ K).
    rewrite (RouteFacts.no_row_matches _ _ (others_differ _ _ _ K Fa)).
    rewrite (unchanged_rows _ _ _ (others_differ _ _ _ K Fa)).
    reflexivity.
Qed.

Lemma put_bookings_id_updates_or_404_witness :
  put_bookings_id "9" evening_body (quiet sample_table)
  = (Return (mkResponse 404 (BError "Booking not found")),
     @mkWorld server sample_table []
       ([] ++ [EQuery update_sql
                 [VStr "Ann B"; VStr "9876500000"; VStr "2025-05-02"; VStr "19:45";
                  VStr "East"; VStr "Platinum"; VNum 750; VStr "Anniversary";
                  VStr "9"]]))
  /\ put_bookings_id "1" evening_body (quiet sample_table)
     = (Return (mkResponse 200 (BMessage "Booking updated")),
        @mkWorld server
          (mkTable ([] ++ updated ann "Ann B" "9876500000" "2025-05-02" "19:45"
                            "East" "Platinum" "Anniversary" 750 :: [bob]) 3)
          []
          ([] ++ [EQuery update_sql
                    [VStr "Ann B"; VStr "9876500000"; VStr "2025-05-02"; VStr "19:45";
                     VStr "East"; VStr "Platinum"; VNum 750; VStr "Anniversary";
                     VStr "1"]])).
Proof.
  split.
  - apply (proj1 (put_bookings_id_updates_or_404 sample_table [] "9"
                    "Ann B" "9876500000" "2025-05-02" "19:45:30" "East" "Platinum"
                    "Anniversary" 750
                    ltac:(discriminate) eq_refl eq_refl (or_intror eq_refl)
                    ltac:(discriminate) ltac:(discriminate) ltac:(discriminate)
                    ltac:(discriminate))).
    repeat constructor; discriminate.
  - apply (proj2 (put_bookings_id_updates_or_404 sample_table [] "1"
                    "Ann B" "9876500000" "2025-05-02" "19:45:30" "East" "Platinum"
                    "Anniversary" 750
                    ltac:(discriminate) eq_refl eq_refl (or_intror eq_refl)
                    ltac:(discriminate) ltac:(discriminate) ltac:(discriminate)
                    ltac:(discriminate)) [] ann [bob]).
    + reflexivity.
    + reflexivity.
    + constructor.
    + repeat constructor. discriminate.
Defined.

End UpdateFacts.

(** ** The delete handler *)

Module DeleteFacts.

Import MySQL.

Lemma delete_recognised : tokens_eqb (tokens delete_sql) (tokens delete_sql) = true.
Proof. vm_compute. reflexivity. Qed.

Lemma select_one_is_not_delete :
  tokens_eqb (tokens select_one_sql) (tokens delete_sql) = false.
Proof. vm_compute. reflexivity. Qed.

Lemma queryWithRetry_quiet_full (sql : string) (ps : list Val) (n : nat)
      (t t' : Table) (tr : list Event) (r : QResult) :
  MySQLFull.exec t sql ps = (Return r, t') ->
  queryWithRetry sql ps (S n) (@mkWorld MySQLFull.server t [] tr)
  = (Return r, @mkWorld MySQLFull.server t' [] (tr ++ [EQuery sql ps])).
Proof.
  intros E. apply queryWithRetry_success.
  unfold pool_query. cbn [faults db trace]. simpl db_exec. rewrite E. reflexivity.
Qed.

Lemma exec_delete (t : Table) (key : string) :
  MySQLFull.exec t delete_sql [VStr key]
  = (Return (Header (affected (VStr key) t) (Some 0)),
     mkTable (filter (fun r => negb (is_row (VStr key) r)) (rows t)) (auto_increment t)).
Proof. unfold MySQLFull.exec. rewrite delete_recognised. reflexivity. Qed.

Lemma exec_one_full (t : Table) (key : string) :
  MySQLFull.exec t select_one_sql [VStr key]
  = (Return (Rows (map present (filter (is_row (VStr key)) (rows t)))), t).
Proof.
  unfold MySQLFull.exec. rewrite select_one_is_not_delete. apply RouteFacts.exec_one.
Qed.

Lemma kept_rows (key : Val) (l : list Booking) :
  Forall (fun r => sql_int key <> Some (id r)) l ->
  filter (fun r => negb (is_row key r)) l = l.
Proof.
  induction 1 as [|r l Hr _ IH]; [reflexivity|].
  simpl. rewrite IH.
  unfold is_row, holds. destruct (sql_int key) as [n|]; [|reflexivity].
  simpl. destruct (Z.eqb_spec n (id r)); [congruence|reflexivity].
Qed.

(** X17.  Deleting on the MySQL model, with no fault pending: when no row
    has the id the answer is 404, not 500, and the table is as it was; when
    one row has it the answer is 200, that row is gone while every other row
    stays, and fetching the same id afterwards answers 404. *)
Theorem delete_bookings_id_removes_or_404 :
  forall (t : Table) (tr : list Event) (key : string),
    (Forall (fun r => sql_int (VStr key) <> Some (id r)) (rows t) ->
     delete_bookings_id key (@mkWorld MySQLFull.server t [] tr)
     = (Return (mkResponse 404 (BError "Booking not found")),
        @mkWorld MySQLFull.server t [] (tr ++ [EQuery delete_sql [VStr key]])))
    /\ (forall before r after,
          rows t = before ++ r :: after ->
          sql_int (VStr key) = Some (id r) ->
          Forall (fun x => id x <> id r) before ->
          Forall (fun x => id x <> id r) after ->
          delete_bookings_id key (@mkWorld MySQLFull.server t [] tr)
          = (Return (mkResponse 200 (BMessage "Booking deleted")),
             @mkWorld MySQLFull.server (mkTable (before ++ after) (auto_increment t)) []
               (tr ++ [EQuery delete_sql [VStr key]]))
          /\ fst (get_bookings_id key
                    (snd (delete_bookings_id key (@mkWorld MySQLFull.server t [] tr))))
             = Return (mkReply 404 (DBody (BError "Booking not found")))).
Proof.
  intros t tr key. split.
  - intros Hnone. unfold delete_bookings_id, try_catch, bind, default_retries.
    rewrite (queryWithRetry_quiet_full _ _ 2 t _ tr _ (exec_delete t key)).
    unfold affected. rewrite (RouteFacts.no_row_matches _ _ Hnone).
    rewrite (kept_rows _ _ Hnone). destruct t; reflexivity.
  - intros before r after E K Fb Fa.
    assert (D : delete_bookings_id key (@mkWorld MySQLFull.server t [] tr)
                = (Return (mkResponse 200 (BMessage "Booking deleted")),
                   @mkWorld MySQLFull.server
                     (mkTable (before ++ after) (auto_increment t)) []
                     (tr ++ [EQuery delete_sql [VStr key]]))).
    { unfold delete_bookings_id, try_catch, bind, default_retries.
      rewrite (queryWithRetry_quiet_full _ _ 2 t _ tr _ (exec_delete t key)).
      unfold affected. rewrite E, !filter_app.
      rewrite (RouteFacts.no_row_matches _ _ (UpdateFacts.others_differ _ _ _ K Fb)).
      rewrite (kept_rows _ _ (UpdateFacts.others_differ _ _ _ K Fb)).
      cbn [filter app].
      rewrite (RouteFacts.row_matches _ _ K). cbn [negb].
      rewrite (RouteFacts.no_row_matches _ _ (UpdateFacts.others_differ _ _ _ K Fa)).
      rewrite (kept_rows _ _ (UpdateFacts.others_differ _ _ _ K Fa)).
      reflexivity. }
    split; [exact D|].
    rewrite D. cbn [snd].
    unfold get_bookings_id, try_catch, bind, default_retries.
    rewrite (queryWithRetry_quiet_full _ _ 2 _ _ _ _ (exec_one_full _ key)).
    cbn [rows]. rewrite filter_app.
    rewrite (RouteFacts.no_row_matches _ _ (UpdateFacts.others_differ _ _ _ K Fb)).
    rewrite (RouteFacts.no_row_matches _ _ (UpdateFacts.others_differ _ _ _ K Fa)).
    reflexivity.
Qed.

Lemma delete_bookings_id_removes_or_404_witness :
  delete_bookings_id "5" (@mkWorld MySQLFull.server sample_table [] [])
  = (Return (mkResponse 404 (BError "Booking not found")),
     @mkWorld MySQLFull.server sample_table [] ([] ++ [EQuery delete_sql [VStr "5"]]))
  /\ delete_bookings_id "1" (@mkWorld MySQLFull.server sample_table [] [])
     = (Return (mkResponse 200 (BMessage "Booking deleted")),
        @mkWorld MySQLFull.server (mkTable ([] ++ [bob]) 3) []
          ([] ++ [EQuery delete_sql [VStr "1"]])).
Proof.
  split.
  - apply (proj1 (delete_bookings_id_removes_or_404 sample_table [] "5")).
    repeat constructor; discriminate.
  - apply (proj2 (delete_bookings_id_removes_or_404 sample_table [] "1") [] ann [bob]).
    + reflexivity.
    + reflexivity.
    + constructor.
    + repeat constructor. discriminate.
Defined.

End DeleteFacts.

(** ** The date of the notifications message *)

Module MessageFacts.

Lemma two_digit_days :
  holds_from (fun k => matches [Digit; Digit] (padStart 2 "0" (decimal k))) 1 31 = true.
Proof. vm_compute. reflexivity. Qed.

Lemma four_digit_years :
  holds_from (fun k => matches [Digit; Digit; Digit; Digit] (decimal k))
    1000 (Z.to_nat 9000) = true.
Proof. vm_compute. reflexivity. Qed.

(** X18.  For a day from 1 to 31, a zero-based month from 0 to 11 and a
    year from 1000 to 9999, the date in the notifications message has the
    form DD-MM-YYYY, and its three parts read back as the day, the month
    counted from one, and the year. *)
Theorem formatDateForResponse_is_dd_mm_yyyy :
  forall date : JSDate,
    1 <= getDate date <= 31 ->
    0 <= getMonth date <= 11 ->
    1000 <= getFullYear date <= 9999 ->
    matches re_dmy (formatDateForResponse date) = true
    /\ exists dd mm yyyy,
        formatDateForResponse date = (dd ++ "-" ++ mm ++ "-" ++ yyyy)%string
        /\ parseInt dd = Some (getDate date)
        /\ parseInt mm = Some (getMonth date + 1)
        /\ parseInt yyyy = Some (getFullYear date).
Proof.
  intros date Hd Hm Hy. unfold formatDateForResponse. cbv zeta.
  assert (Md : matches [Digit; Digit] (padStart 2 "0" (decimal (getDate date))) = true).
  { apply (NumeralFacts.holds_from_spec _ 31 1 _ two_digit_days). lia. }
  assert (Mm : matches [Digit; Digit] (padStart 2 "0" (decimal (getMonth date + 1)))
               = true).
  { apply (NumeralFacts.holds_from_spec _ 31 1 _ two_digit_days). lia. }
  assert (My : matches [Digit; Digit; Digit; Digit] (decimal (getFullYear date)) = true).
  { apply (NumeralFacts.holds_from_spec _ (Z.to_nat 9000) 1000 _ four_digit_years).
    rewrite Z2Nat.id; lia. }
  split.
  - change re_dmy
      with ([Digit; Digit] ++ [Lit "-"] ++ [Digit; Digit] ++ [Lit "-"]
            ++ [Digit; Digit; Digit; Digit]).
    apply PatternFacts.matches_app; [exact Md|].
    apply (PatternFacts.matches_app [Lit "-"] _ "-"); [reflexivity|].
    apply PatternFacts.matches_app; [exact Mm|].
    apply (PatternFacts.matches_app [Lit "-"] _ "-"); [reflexivity|].
    exact My.
  - exists (padStart 2 "0" (decimal (getDate date))),
           (padStart 2 "0" (decimal (getMonth date + 1))),
           (decimal (getFullYear date)).
    split; [reflexivity|].
    split; [apply NumeralFacts.parseInt_padStart_decimal; lia|].
    split; [apply NumeralFacts.parseInt_padStart_decimal; lia|].
    apply (NumeralFacts.parseInt_padStart_decimal 0). lia.
Qed.

Lemma formatDateForResponse_is_dd_mm_yyyy_witness :
  matches re_dmy (formatDateForResponse march_10) = true
  /\ exists dd mm yyyy,
      formatDateForResponse march_10 = (dd ++ "-" ++ mm ++ "-" ++ yyyy)%string
      /\ parseInt dd = Some 10
      /\ parseInt mm = Some (2 + 1)
      /\ parseInt yyyy = Some 2025.
Proof.
  apply (formatDateForResponse_is_dd_mm_yyyy march_10); simpl; lia.
Defined.

End MessageFacts.
